(** * FinTrend auto blog poster: a shallow embedding of [auto_blog_poster.py]

    The program is a single-pass pipeline of blocking calls to external
    services (yfinance, Finnhub, OpenAI, the WordPress REST API, Matplotlib
    and the file system).  The embedding keeps the control flow of every
    function of the source and replaces each external collaborator by an
    oracle of a [world] record.  Effects are recorded in a trace of events;
    Python exceptions are the [Raise] case of a result. *)

From Stdlib Require Import String Ascii List ZArith Bool Arith Lia DecimalString.
From Stdlib Require DecimalNat DecimalFacts.
Import ListNotations.
Local Open Scope string_scope.
Local Open Scope nat_scope.

(** ** Python [str] values

    A Python [str] is modelled by the bytes of its UTF-8 encoding, which is
    how the string literals of the source are stored in this file. *)

Definition nl_char : ascii := ascii_of_nat 10.
Definition nl : string := String nl_char EmptyString.
Definition dquote : string := String (ascii_of_nat 34) EmptyString.

(** [bool(s)] for a string. *)
Definition truthy_str (s : string) : bool := negb (String.eqb s "").

(** A byte [10xxxxxx] continues a code point started earlier. *)
Definition is_continuation (c : ascii) : bool :=
  let n := nat_of_ascii c in (128 <=? n) && (n <? 192).

(** [len(s)]: the number of code points. *)
Fixpoint py_len (s : string) : nat :=
  match s with
  | EmptyString => 0
  | String c r => (if is_continuation c then 0 else 1) + py_len r
  end.

(** [s[:n]]: the first [n] code points. *)
Fixpoint py_take (n : nat) (s : string) : string :=
  match s with
  | EmptyString => EmptyString
  | String c r =>
      if is_continuation c then String c (py_take n r)
      else match n with
           | 0 => EmptyString
           | S m => String c (py_take m r)
           end
  end.

Fixpoint spaces (n : nat) : string :=
  match n with
  | 0 => EmptyString
  | S m => String " " (spaces m)
  end.

(** [format(s, " <w")]: left-justified in a field of [w] code points. *)
Definition ljust (w : nat) (s : string) : string := s ++ spaces (w - py_len s).

(** [s.rstrip(c)] for a single character [c]. *)
Fixpoint rstrip_char (c : ascii) (s : string) : string :=
  match s with
  | EmptyString => EmptyString
  | String a r =>
      match rstrip_char c r with
      | EmptyString => if Ascii.eqb a c then EmptyString else String a EmptyString
      | r' => String a r'
      end
  end.

(** [s.split(sep)] for a single character [sep]. *)
Fixpoint split (sep : ascii) (s : string) : list string :=
  match s with
  | EmptyString => [EmptyString]
  | String c r =>
      if Ascii.eqb c sep then EmptyString :: split sep r
      else match split sep r with
           | [] => [String c EmptyString]
           | l :: ls => String c l :: ls
           end
  end.

(** [sep.join(parts)]. *)
Definition join (sep : string) (parts : list string) : string := String.concat sep parts.

Fixpoint string_rev_append (s acc : string) : string :=
  match s with
  | EmptyString => acc
  | String c r => string_rev_append r (String c acc)
  end.

Definition string_rev (s : string) : string := string_rev_append s EmptyString.

(** [os.path.basename]: what follows the last slash. *)
Fixpoint basename (p : string) : string :=
  match p with
  | EmptyString => EmptyString
  | String c r => if existsb (Ascii.eqb "/") (list_ascii_of_string r) then basename r
                  else if Ascii.eqb c "/" then r else p
  end.

(** [os.path.join(a, b)] for a relative [b]. *)
Definition path_join (a b : string) : string :=
  match string_rev a with
  | EmptyString => b
  | String c _ => if Ascii.eqb c "/" then a ++ b else a ++ "/" ++ b
  end.

(** *** [str.strip()]

    Python strips the code points for which [str.isspace] holds: the ASCII
    controls 9-13 and 28-31, the space, and U+0085, U+00A0, U+1680,
    U+2000-U+200A, U+2028, U+2029, U+202F, U+205F and U+3000.  On the UTF-8
    bytes these are the one, two and three byte sequences below. *)

Definition ws1 (a : ascii) : bool :=
  let n := nat_of_ascii a in
  ((9 <=? n) && (n <=? 13)) || ((28 <=? n) && (n <=? 32)).

Definition ws2 (a b : ascii) : bool :=
  (nat_of_ascii a =? 194) && ((nat_of_ascii b =? 133) || (nat_of_ascii b =? 160)).

Definition ws3 (a b c : ascii) : bool :=
  let x := nat_of_ascii a in
  let y := nat_of_ascii b in
  let z := nat_of_ascii c in
  ((x =? 225) && (y =? 154) && (z =? 128))
  || ((x =? 226) && (y =? 128)
      && (((128 <=? z) && (z <=? 138)) || (z =? 168) || (z =? 169) || (z =? 175)))
  || ((x =? 226) && (y =? 129) && (z =? 159))
  || ((x =? 227) && (y =? 128) && (z =? 128)).

(** What is left of [s] after one leading whitespace code point, if any. *)
Definition ws_head (s : string) : option string :=
  match s with
  | EmptyString => None
  | String a r1 =>
      if ws1 a then Some r1
      else match r1 with
           | EmptyString => None
           | String b r2 =>
               if ws2 a b then Some r2
               else match r2 with
                    | EmptyString => None
                    | String c r3 => if ws3 a b c then Some r3 else None
                    end
           end
  end.

(** The same on the reversed string: one trailing whitespace code point. *)
Definition ws_last (s : string) : option string :=
  match s with
  | EmptyString => None
  | String a r1 =>
      if ws1 a then Some r1
      else match r1 with
           | EmptyString => None
           | String b r2 =>
               if ws2 b a then Some r2
               else match r2 with
                    | EmptyString => None
                    | String c r3 => if ws3 c b a then Some r3 else None
                    end
           end
  end.

Fixpoint strip_while (step : string -> option string) (fuel : nat) (s : string) : string :=
  match fuel with
  | 0 => s
  | S n => match step s with
           | Some r => strip_while step n r
           | None => s
           end
  end.

Definition py_lstrip (s : string) : string := strip_while ws_head (String.length s) s.

Definition py_rstrip (s : string) : string :=
  string_rev (strip_while ws_last (String.length s) (string_rev s)).

Definition py_strip (s : string) : string := py_rstrip (py_lstrip s).

(** *** [textwrap.dedent]

    The algorithm of CPython's [Lib/textwrap.py]: lines made of spaces and
    tabs only are emptied, the margin is the longest common prefix of the
    indentations of the other non-empty lines, and the margin is removed
    from the start of every line that has it. *)

Definition is_sp_tab (c : ascii) : bool :=
  Ascii.eqb c " " || Ascii.eqb c (ascii_of_nat 9).

Fixpoint all_sp_tab (s : string) : bool :=
  match s with
  | EmptyString => true
  | String c r => is_sp_tab c && all_sp_tab r
  end.

Definition blank_line (l : string) : string := if all_sp_tab l then EmptyString else l.

Fixpoint indent_of (l : string) : string :=
  match l with
  | EmptyString => EmptyString
  | String c r => if is_sp_tab c then String c (indent_of r) else EmptyString
  end.

Fixpoint common_prefix (a b : string) : string :=
  match a, b with
  | String x a', String y b' =>
      if Ascii.eqb x y then String x (common_prefix a' b') else EmptyString
  | _, _ => EmptyString
  end.

Definition margin_step (m : option string) (l : string) : option string :=
  if String.eqb l "" then m
  else match m with
       | None => Some (indent_of l)
       | Some mg => Some (common_prefix mg (indent_of l))
       end.

Definition margin_of (lines : list string) : option string :=
  fold_left margin_step lines None.

Fixpoint drop_prefix (p s : string) : option string :=
  match p with
  | EmptyString => Some s
  | String x p' =>
      match s with
      | EmptyString => None
      | String y s' => if Ascii.eqb x y then drop_prefix p' s' else None
      end
  end.

Definition remove_margin (m l : string) : string :=
  match drop_prefix m l with
  | Some r => r
  | None => l
  end.

Definition dedent (text : string) : string :=
  let lines := map blank_line (split nl_char text) in
  match margin_of lines with
  | Some m => if truthy_str m then join nl (map (remove_margin m) lines) else join nl lines
  | None => join nl lines
  end.

(** *** Characters of a string

    Used to state what the text operations keep. *)

Definition has_char (c : ascii) (s : string) : Prop := In c (list_ascii_of_string s).

(** An ASCII character that is not white space. *)
Definition solid (c : ascii) : bool := negb (ws1 c) && (nat_of_ascii c <? 128).

Definition margin_ok (m : option string) : Prop :=
  match m with
  | Some mg => all_sp_tab mg = true
  | None => True
  end.

(** *** Numbers and dates as text *)

Definition str_nat (n : nat) : string := NilZero.string_of_uint (Nat.to_uint n).
Definition str_Z (z : Z) : string := NilZero.string_of_int (Z.to_int z).

(** [%02d] and [%04d]. *)
Definition pad2 (n : nat) : string := if n <? 10 then "0" ++ str_nat n else str_nat n.
Definition pad4 (n : nat) : string :=
  if n <? 10 then "000" ++ str_nat n
  else if n <? 100 then "00" ++ str_nat n
  else if n <? 1000 then "0" ++ str_nat n
  else str_nat n.

Record datetime := {
  year : nat; month : nat; day : nat;
  hour : nat; minute : nat; second : nat
}.

Definition is_leap (y : nat) : bool :=
  ((y mod 4 =? 0) && negb (y mod 100 =? 0)) || (y mod 400 =? 0).

Definition days_in_month (y m : nat) : nat :=
  match m with
  | 2 => if is_leap y then 29 else 28
  | 4 | 6 | 9 | 11 => 30
  | _ => 31
  end.

(** [d - timedelta(days=1)]. *)
Definition prev_day (d : datetime) : datetime :=
  if 1 <? day d then
    {| year := year d; month := month d; day := day d - 1;
       hour := hour d; minute := minute d; second := second d |}
  else if 1 <? month d then
    {| year := year d; month := month d - 1; day := days_in_month (year d) (month d - 1);
       hour := hour d; minute := minute d; second := second d |}
  else
    {| year := year d - 1; month := 12; day := 31;
       hour := hour d; minute := minute d; second := second d |}.

Fixpoint minus_days (n : nat) (d : datetime) : datetime :=
  match n with
  | 0 => d
  | S m => minus_days m (prev_day d)
  end.

(** [d.date().isoformat()]. *)
Definition isoformat (d : datetime) : string :=
  pad4 (year d) ++ "-" ++ pad2 (month d) ++ "-" ++ pad2 (day d).

(** [strftime] with the formats the source uses. *)
Definition fmt_jp_date (d : datetime) : string :=
  pad4 (year d) ++ "年" ++ pad2 (month d) ++ "月" ++ pad2 (day d) ++ "日".
Definition fmt_slug (d : datetime) : string :=
  pad4 (year d) ++ pad2 (month d) ++ pad2 (day d) ++ "-" ++ pad2 (hour d) ++ pad2 (minute d).
Definition fmt_file (d : datetime) : string :=
  pad4 (year d) ++ pad2 (month d) ++ pad2 (day d) ++ "_"
  ++ pad2 (hour d) ++ pad2 (minute d) ++ pad2 (second d).
Definition fmt_dash (d : datetime) : string :=
  isoformat d ++ " " ++ pad2 (hour d) ++ ":" ++ pad2 (minute d) ++ " JST".

(** ** Python values, exceptions and the runtime

    [json F] is what [r.json()] can return, with [F] the type of floats.
    [JNull] is also Python's [None] where a function of the source returns
    a JSON value or [None]. *)

#[local] Set Warnings "-register-all".

Inductive json (F : Type) : Type :=
| JNull
| JBool (b : bool)
| JInt (z : Z)
| JFloat (f : F)
| JStr (s : string)
| JList (items : list (json F))
| JDict (entries : list (string * json F)).

Arguments JNull {F}.
Arguments JBool {F} b.
Arguments JInt {F} z.
Arguments JFloat {F} f.
Arguments JStr {F} s.
Arguments JList {F} items.
Arguments JDict {F} entries.

(** Exceptions (all subclasses of [Exception]).  [ExternalError] is raised
    inside a collaborator (requests, yfinance, openai, matplotlib, the
    operating system); the others are raised by the program's own
    operations on a value of an unexpected shape. *)
Inductive exn : Type :=
| ExternalError (msg : string)
| AttributeError (attr : string)
| TypeError (what : string)
| KeyError (key : string)
| IndexError (what : string)
| ValueError (what : string).

(** What the embedding takes from CPython without modelling it: floats and
    the conversions whose exact text or rounding the program never inspects. *)
Record runtime : Type := {
  float : Type;
  round2 : float -> float;               (* float(round(x, 2)) *)
  str_float : float -> string;           (* str(x) *)
  float_truthy : float -> bool;          (* bool(x) *)
  int_of_float : float -> option Z;      (* int(x), None when it raises *)
  int_of_str : string -> option Z;       (* int(s), None when it raises *)
  str_isdigit : string -> bool;          (* s.isdigit() *)
  repr_json : json float -> string;      (* str() of a list or a dict *)
  str_exn : exn -> string;               (* str(e) *)
  b64decode : string -> option string    (* base64.b64decode, None when it raises *)
}.

Inductive outcome (A : Type) : Type :=
| Returns (a : A)
| Throws (e : exn).

Arguments Returns {A} a.
Arguments Throws {A} e.

Inductive result (A : Type) : Type :=
| Ok (a : A)
| Raise (e : exn).

Arguments Ok {A} a.
Arguments Raise {A} e.

(** A Python [dict] with string keys, in insertion order. *)
Definition dict (V : Type) : Type := list (string * V).

Fixpoint dict_get {V : Type} (k : string) (d : dict V) : option V :=
  match d with
  | [] => None
  | (k', v) :: r => if String.eqb k' k then Some v else dict_get k r
  end.

(** [d[k] = v]. *)
Fixpoint dict_set {V : Type} (d : dict V) (k : string) (v : V) : dict V :=
  match d with
  | [] => [(k, v)]
  | (k', v') :: r => if String.eqb k' k then (k', v) :: r else (k', v') :: dict_set r k v
  end.

(** [xs[-1]] guarded by [len(xs) == 0]. *)
Fixpoint iloc_last {A : Type} (xs : list A) : option A :=
  match xs with
  | [] => None
  | [x] => Some x
  | _ :: r => iloc_last r
  end.

Definition is_nil {A : Type} (l : list A) : bool :=
  match l with
  | [] => true
  | _ :: _ => false
  end.

(** ** Article text *)

(** The three fixed pieces of the f-string of [long_article_fallback],
    around the date and the context block. *)
Definition template_head : string := "
    1. 本日の市場サマリー（".

Definition template_mid : string := "）
    本レポートでは、米国株式・為替・コモディティ・債券を横断して俯瞰します。主要指標の動き・ニュースの背景を整理し、投資家が押さえるべき観点を解説します。

    2. 主要指標の現状
    ".

Definition template_tail : string := "

    3. 安全資産の位置づけ
    市場の不確実性が高まる局面では、金や良質な債券、インデックス型の投資信託が相対的に堅調となる傾向があります。VIXが上昇する場合はボラティリティ・リスクが高まるため、分散とキャッシュ余力を重視した運用が有効です。

    4. 金利・ドルインデックスの示唆
    米10年債利回りの変動は株式の割引率を通じてバリュエーションに影響します。ドルインデックスはコモディティ価格の逆風/追い風となり、WTI原油や金のトレンドに波及する点にも留意が必要です。

    5. マグニフィセントセブンの動向
    高い収益性とAI/クラウド等の成長領域を背景に、依然として指数寄与度が高いセクターです。ただしイベント・決算期には変動率が上がるため、リスク管理を徹底したいところです。

    6. 投資家にとっての実務的ポイント
    - ボラティリティ上昇下では、ポジションサイズ調整・ディフェンシブ資産の組み込み・ヘッジ手段の検討が有用
    - 長期投資の軸は分散・低コスト・規律を基本に
    - テーマ投資は中核資産と衛星資産を明確に分離し、想定外の変動に備える

    7. まとめ
    本日の材料を踏まえ、過度な強気/弱気に振れず、データに基づく判断を積み重ねることが重要です。
    ".

Definition sys_prompt : string :=
  "あなたは日本語の投資ライターです。以下の市場データ・ニュースを使って、投資家向けに読みやすい長文の相場レポートを作成してください。見出しは「1. 2. 3. …」の番号見出しを使い、## 等のMarkdown見出し記号は付けないでください。投資アドバイスは一般的・教育的な観点にとどめ、特定銘柄の推奨は避けます。安全資産（ゴールド・債券・投資信託）にも必ず言及し、VIX・ドルインデックス・WTI・金利にも触れてください。最後に、マグニフィセントセブンのハイライトと社名ベースの話題銘柄を箇条書きで要約してください。本文は2000〜2600字程度。".

Definition image_prompt : string :=
  "米国市場のダッシュボード。VIX・ドルインデックス・WTI・金・金利と、マグニフィセントセブンのテック感を想起させる安全・知的なイメージ。ミニマルで品のある青系。テキスト要素やロゴは入れない。".

Section Program.

Variable rt : runtime.

Local Abbreviation value := (json (float rt)).

(** Truthiness, [str()] and [int()] of a JSON value. *)
Definition truthy (j : value) : bool :=
  match j with
  | JNull => false
  | JBool b => b
  | JInt z => negb (Z.eqb z 0)
  | JFloat f => float_truthy rt f
  | JStr s => truthy_str s
  | JList l => negb (is_nil l)
  | JDict d => negb (is_nil d)
  end.

Definition py_str (j : value) : string :=
  match j with
  | JNull => "None"
  | JBool true => "True"
  | JBool false => "False"
  | JInt z => str_Z z
  | JFloat f => str_float rt f
  | JStr s => s
  | JList _ | JDict _ => repr_json rt j
  end.

(** ** The outside world

    Every call that leaves the process is an [event]; the answer comes from
    an oracle of the [world].  Within one run an oracle answers a given
    request the same way each time, and the clock stands still. *)

Inductive request : Type :=
| GET (url : string) (params : list (string * string))
      (auth : option (string * string)) (timeout : nat)
| POST_json (url : string) (auth : option (string * string)) (body : value) (timeout : nat)
| POST_file (url : string) (auth : option (string * string))
            (headers : list (string * string)) (fname path mime : string) (timeout : nat).

Record response : Type := {
  status_code : Z;
  text : string;
  json_body : outcome value    (* r.json() *)
}.

(** One [ax.text] call: position in hundredths of the axes, text, size, weight. *)
Record text_artist : Type := {
  tx_x : Z; tx_y : Z; tx_text : string; tx_size : nat; tx_bold : bool
}.

Record figure : Type := {
  fig_title : string;
  fig_texts : list text_artist
}.

(** [img.data[0].b64_json]: the attribute may be missing, or hold [None]. *)
Record image_item : Type := { b64_json : option (option string) }.
Record image_response : Type := { img_data : option (list image_item) }.

Inductive event : Type :=
| Log (msg : string)
| Http (r : request)
| YfHistory (ticker period : string)
| OpenAIChat (model temperature : string) (max_tokens : nat) (system user : string)
| OpenAIImage (model prompt size : string)
| FileWrite (path content : string)
| FileOpen (path : string)
| SaveFig (path : string) (fig : figure).

Record world : Type := {
  env : string -> option string;               (* os.getenv after load_dotenv *)
  openai_installed : bool;                     (* the import of the SDK succeeded *)
  openai_client : string -> outcome unit;      (* OpenAI(api_key=...) *)
  now_jst : datetime;                          (* datetime.now(JST) *)
  utcnow : datetime;                           (* datetime.utcnow() *)
  getcwd : string;                             (* os.getcwd() *)
  http : request -> outcome response;          (* requests.get / requests.post *)
  yf_history : string -> outcome (list (float rt));
      (* the Close column of yf.Ticker(t).history(period=1d); an exception
         anywhere in the body of the try of price_of is a Throws here *)
  chat_completions : string -> string -> outcome (list (option string));
      (* message.content of each of resp.choices *)
  images_generate : string -> outcome image_response;
  write_bytes : string -> string -> outcome unit;   (* open(path, wb) and write *)
  open_rb : string -> outcome unit;                 (* open(path, rb) *)
  savefig : string -> figure -> outcome unit        (* the Matplotlib render *)
}.

Definition is_network (ev : event) : bool :=
  match ev with
  | Http _ | YfHistory _ _ | OpenAIChat _ _ _ _ _ | OpenAIImage _ _ _ => true
  | _ => false
  end.

(** A write call to the CMS: any POST. *)
Definition is_write (ev : event) : bool :=
  match ev with
  | Http (POST_json _ _ _ _) | Http (POST_file _ _ _ _ _ _ _) => true
  | _ => false
  end.

Definition is_log (ev : event) : bool :=
  match ev with
  | Log _ => true
  | _ => false
  end.

(** ** The monad of the embedding: a trace of events and a result *)

Definition M (A : Type) : Type := (list event * result A)%type.

Definition ret {A : Type} (a : A) : M A := ([], Ok a).

Definition raise {A : Type} (e : exn) : M A := ([], Raise e).

Definition bind {A B : Type} (m : M A) (f : A -> M B) : M B :=
  match m with
  | (t, Ok a) => let (t', r) := f a in ((t ++ t')%list, r)
  | (t, Raise e) => (t, Raise e)
  end.

(** [try: m  except Exception as e: h e]. *)
Definition try_except {A : Type} (m : M A) (h : exn -> M A) : M A :=
  match m with
  | (t, Raise e) => let (t', r) := h e in ((t ++ t')%list, r)
  | (t, Ok a) => (t, Ok a)
  end.

Definition perform {A : Type} (ev : event) (o : outcome A) : M A :=
  ([ev], match o with Returns a => Ok a | Throws e => Raise e end).

Definition events {A : Type} (m : M A) : list event := fst m.
Definition outcome_of {A : Type} (m : M A) : result A := snd m.

Notation "x <- m ;; k" := (bind m (fun x => k))
  (at level 61, m at next level, right associativity).
Notation "m ;; k" := (bind m (fun _ => k))
  (at level 61, right associativity).

(** ** Configuration (module level of the source) *)

Variable w : world.

Definition getenv (k d : string) : string :=
  match env w k with
  | Some v => v
  | None => d
  end.

Definition WP_BASE_URL : string := rstrip_char "/" (getenv "WP_BASE_URL" "").
Definition WP_POSTS_URL : string :=
  WP_BASE_URL ++ getenv "WP_API_ENDPOINT" "/wp-json/wp/v2/posts".
Definition WP_MEDIA_URL : string := WP_BASE_URL ++ "/wp-json/wp/v2/media".
Definition WP_TAGS_URL : string := WP_BASE_URL ++ "/wp-json/wp/v2/tags".
Definition WP_USERNAME : string := getenv "WP_USERNAME" "".
Definition WP_APP_PASSWORD : string := getenv "WP_APP_PASSWORD" "".
Definition WP_CATEGORY_ID : string := getenv "WP_CATEGORY_ID" "1".
Definition POST_STATUS : string := getenv "POST_STATUS" "publish".
Definition WP_TAGS_RAW : string := py_strip (getenv "WP_TAGS" "米国株,仮想通貨,VIX,WTI").
Definition FINNHUB_API_KEY : string := getenv "FINNHUB_API_KEY" "".
Definition OPENAI_API_KEY : string := getenv "OPENAI_API_KEY" "".
Definition SLUG_PREFIX : string := getenv "SLUG_PREFIX" "market-report".

(** [client] is an object or [None]; only its truthiness is used. *)
Definition client : bool :=
  if openai_installed w && truthy_str OPENAI_API_KEY then
    match openai_client w OPENAI_API_KEY with
    | Returns _ => true
    | Throws _ => false
    end
  else false.

(** ** Utilities *)

(** [log]: the line is [msg] behind the time of the call; a failure to
    append to the log file is swallowed. *)
Definition log (msg : string) : M unit := ([Log msg], Ok tt).

Definition wp_auth : option (string * string) := Some (WP_USERNAME, WP_APP_PASSWORD).

Definition requests_get (url : string) (params : list (string * string))
    (auth : option (string * string)) (timeout : nat) : M response :=
  perform (Http (GET url params auth timeout)) (http w (GET url params auth timeout)).

Definition requests_post_json (url : string) (auth : option (string * string))
    (body : value) (timeout : nat) : M response :=
  perform (Http (POST_json url auth body timeout)) (http w (POST_json url auth body timeout)).

Definition resp_json (r : response) : M value :=
  match json_body r with
  | Returns j => ret j
  | Throws e => raise e
  end.

Definition http_json (url : string) (params : list (string * string)) : M value :=
  try_except
    (r <- requests_get url params None 20 ;;
     if Z.eqb (status_code r) 200 then resp_json r
     else
       log ("http_json 失敗: " ++ url ++ " [" ++ str_Z (status_code r) ++ "] "
            ++ py_take 150 (text r)) ;;
       ret JNull)
    (fun e =>
       log ("http_json例外: " ++ url ++ " | " ++ str_exn rt e) ;;
       ret JNull).

(** ** Data collection *)

Definition price_of (ticker : string) : M (option (float rt)) :=
  try_except
    (data <- perform (YfHistory ticker "1d") (yf_history w ticker) ;;
     match iloc_last data with
     | None => ret None
     | Some c => ret (Some (round2 rt c))
     end)
    (fun e =>
       log ("yfinance 価格取得失敗: " ++ ticker ++ " | " ++ str_exn rt e) ;;
       ret None).

Definition dashboard_tickers : list (string * string) :=
  [ ("VIX", "^VIX");
    ("ドルインデックス", "DX-Y.NYB");
    ("WTI原油", "CL=F");
    ("金先物", "GC=F");
    ("米10年債利回り(%)", "^TNX") ].

(** [for name, tkr in items: out[name] = price_of(tkr)]. *)
Fixpoint fetch_prices (items : list (string * string)) (out : dict (option (float rt)))
    : M (dict (option (float rt))) :=
  match items with
  | [] => ret out
  | (name, tkr) :: rest =>
      p <- price_of tkr ;;
      fetch_prices rest (dict_set out name p)
  end.

Definition market_dashboard : M (dict (option (float rt))) :=
  fetch_prices dashboard_tickers [].

Definition m7_names : list string :=
  ["AAPL"; "MSFT"; "NVDA"; "AMZN"; "META"; "GOOGL"; "TSLA"].

(** The comprehension [{t: price_of(t) for t in names}]. *)
Definition m7_prices : M (dict (option (float rt))) :=
  fetch_prices (map (fun t => (t, t)) m7_names) [].

Definition finnhub_url (ticker : string) : string :=
  "https://finnhub.io/api/v1/company-news?symbol=" ++ ticker
  ++ "&from=" ++ isoformat (minus_days 4 (utcnow w))
  ++ "&to=" ++ isoformat (utcnow w)
  ++ "&token=" ++ FINNHUB_API_KEY.

Definition finnhub_company_news (ticker : string) : M (list value) :=
  if negb (truthy_str FINNHUB_API_KEY) then ret []
  else
    js <- http_json (finnhub_url ticker) [] ;;
    if negb (truthy js)
       || match js with
          | JDict d => match dict_get "error" d with
                       | Some v => truthy v
                       | None => false
                       end
          | _ => false
          end
    then ret []
    else match js with
         | JList l => ret (firstn 2 l)
         | _ => ret []
         end.

(** ** Article generation *)

(** [f"{v}"] for a price or [None]. *)
Definition str_price (v : option (float rt)) : string :=
  match v with
  | None => "None"
  | Some f => str_float rt f
  end.

(** [f"- {k}: {v}"]. *)
Definition quote_line (kv : string * option (float rt)) : string :=
  "- " ++ fst kv ++ ": " ++ str_price (snd kv).

(** [j.get(k, d)]: only a dict has the method. *)
Definition py_get (j : value) (k : string) (d : value) : M value :=
  match j with
  | JDict kvs =>
      ret (match dict_get k kvs with
           | Some v => v
           | None => d
           end)
  | _ => raise (AttributeError "get")
  end.

(** [j.strip()]: only a str has the method. *)
Definition str_strip (j : value) : M string :=
  match j with
  | JStr s => ret (py_strip s)
  | _ => raise (AttributeError "strip")
  end.

Definition news_tickers : list string :=
  ["AAPL"; "NVDA"; "TSLA"; "MSFT"; "META"; "GOOGL"; "AMZN"].

(** The inner loop [for n in ns] of build_context_text. *)
Fixpoint news_item_lines (ns : list value) (parts : list string) : M (list string) :=
  match ns with
  | [] => ret parts
  | n :: rest =>
      h <- py_get n "headline" (JStr "") ;;
      ttl <- str_strip h ;;
      url <- py_get n "url" (JStr "") ;;
      news_item_lines rest (app parts ["  - " ++ ttl ++ " (" ++ py_str url ++ ")"])
  end.

(** The outer loop [for t in [...]]. *)
Fixpoint news_lines (tickers : list string) (parts : list string) : M (list string) :=
  match tickers with
  | [] => ret parts
  | t :: rest =>
      ns <- finnhub_company_news t ;;
      parts' <- (if is_nil ns then ret parts
                 else news_item_lines ns (app parts ["- " ++ t ++ ":"])) ;;
      news_lines rest parts'
  end.

Definition header_dash : string := "【主要指標】".
Definition header_m7 : string := nl ++ "【マグニフィセントセブン】".
Definition header_news : string := nl ++ "【社名ベースの話題銘柄ニュース】".

Definition build_context_text : M string :=
  dash <- market_dashboard ;;
  m7 <- m7_prices ;;
  let parts :=
    ([header_dash] ++ map quote_line dash
     ++ [header_m7] ++ map quote_line m7
     ++ [header_news])%list in
  parts <- news_lines news_tickers parts ;;
  ret (join nl parts).

Definition user_prompt (context_text : string) : string :=
  "本日の市場データと材料:" ++ nl ++ context_text ++ nl ++ nl
  ++ "これを使って記事を書いてください。".

Definition long_article_by_openai (context_text : string) : M (option string) :=
  if negb client then ret None
  else
    try_except
      (choices <- perform
                    (OpenAIChat "gpt-4o-mini" "0.7" 1800 sys_prompt (user_prompt context_text))
                    (chat_completions w sys_prompt (user_prompt context_text)) ;;
       match choices with
       | [] => raise (IndexError "choices")
       | None :: _ => raise (AttributeError "strip")
       | Some content :: _ => ret (Some (py_strip content))
       end)
      (fun e =>
         log ("OpenAI本文生成 失敗: " ++ str_exn rt e) ;;
         ret None).

(** The f-string before [textwrap.dedent]. *)
Definition fallback_template (today context_text : string) : string :=
  template_head ++ today ++ template_mid ++ context_text ++ template_tail.

Definition long_article_fallback (context_text : string) : string :=
  let today := fmt_jp_date (now_jst w) in
  py_strip (dedent (fallback_template today context_text)).

Definition build_article : M string :=
  ctx <- build_context_text ;;
  text <- long_article_by_openai ctx ;;
  ret (match text with
       | Some t => if truthy_str t then t else long_article_fallback ctx
       | None => long_article_fallback ctx
       end).

(** ** Feature image *)

Definition feature_path : string :=
  path_join (getcwd w) ("feature_" ++ fmt_file (now_jst w) ++ ".png").

(** The loop [for k, v in d.items(): ax.text(0.04, y, ...); y -= 0.05].
    Returns the texts drawn and the final [y]. *)
Fixpoint text_rows (width : nat) (items : dict (option (float rt))) (y : Z)
    : list text_artist * Z :=
  match items with
  | [] => ([], y)
  | (k, v) :: rest =>
      let (ts, y') := text_rows width rest (y - 5)%Z in
      ({| tx_x := 4; tx_y := y; tx_text := ljust width k ++ ": " ++ str_price v;
          tx_size := 11; tx_bold := false |} :: ts, y')
  end.

(** Everything the fallback draws on the axes, in drawing order. *)
Definition dashboard_figure (dash m7 : dict (option (float rt))) : figure :=
  let y0 := 95%Z in
  let stamp := {| tx_x := 2; tx_y := y0; tx_text := fmt_dash (now_jst w);
                  tx_size := 10; tx_bold := false |} in
  let y1 := (y0 - 8)%Z in
  let head1 := {| tx_x := 2; tx_y := y1; tx_text := "■ 主要指標";
                  tx_size := 12; tx_bold := true |} in
  let y2 := (y1 - 6)%Z in
  let (rows1, y3) := text_rows 12 dash y2 in
  let y4 := (y3 - 2)%Z in
  let head2 := {| tx_x := 2; tx_y := y4; tx_text := "■ Magnificent 7";
                  tx_size := 12; tx_bold := true |} in
  let y5 := (y4 - 6)%Z in
  let (rows2, _) := text_rows 5 m7 y5 in
  {| fig_title := "Market Dashboard";
     fig_texts := ([stamp; head1] ++ rows1 ++ [head2] ++ rows2)%list |}.

Definition generate_feature_image : M (option string) :=
  generated <-
    (if client then
       try_except
         (img <- perform (OpenAIImage "gpt-image-1" image_prompt "1024x1024")
                         (images_generate w image_prompt) ;;
          match img_data img with
          | Some (item :: _) =>
              match b64_json item with
              | Some payload =>
                  png_bytes <- match payload with
                               | Some s => match b64decode rt s with
                                           | Some b => ret b
                                           | None => raise (ValueError "b64decode")
                                           end
                               | None => raise (TypeError "b64decode")
                               end ;;
                  perform (FileWrite feature_path png_bytes)
                          (write_bytes w feature_path png_bytes) ;;
                  ret (Some feature_path)
              | None => ret None
              end
          | _ => ret None
          end)
         (fun e =>
            log ("OpenAI画像 失敗: " ++ str_exn rt e) ;;
            ret None)
     else ret None) ;;
  match generated with
  | Some out => ret (Some out)
  | None =>
      (* the fallback: no try around it *)
      dash <- market_dashboard ;;
      m7 <- m7_prices ;;
      let fig := dashboard_figure dash m7 in
      perform (SaveFig feature_path fig) (savefig w feature_path fig) ;;
      ret (Some feature_path)
  end.

(** ** WordPress *)

(** [j[k]] for a string key. *)
Definition subscript (j : value) (k : string) : M value :=
  match j with
  | JDict d =>
      match dict_get k d with
      | Some v => ret v
      | None => raise (KeyError k)
      end
  | _ => raise (TypeError "subscript")
  end.

(** [int(j)]. *)
Definition py_int (j : value) : M Z :=
  match j with
  | JInt z => ret z
  | JBool b => ret (if b then 1%Z else 0%Z)
  | JFloat f =>
      match int_of_float rt f with
      | Some z => ret z
      | None => raise (ValueError "int")
      end
  | JStr s =>
      match int_of_str rt s with
      | Some z => ret z
      | None => raise (ValueError "int")
      end
  | _ => raise (TypeError "int")
  end.

(** [status in (200, 201)]. *)
Definition created (r : response) : bool :=
  Z.eqb (status_code r) 200 || Z.eqb (status_code r) 201.

Definition wp_tag_id_by_name (name : string) : M (option Z) :=
  try_except
    (r <- requests_get WP_TAGS_URL [("search", name)] wp_auth 20 ;;
     hit <- (if Z.eqb (status_code r) 200 then
               j <- resp_json r ;;
               match j with
               | JList (first :: _) => ret (Some first)
               | _ => ret None
               end
             else ret None) ;;
     match hit with
     | Some first =>
         v <- subscript first "id" ;;
         z <- py_int v ;;
         ret (Some z)
     | None =>
         r2 <- requests_post_json WP_TAGS_URL wp_auth (JDict [("name", JStr name)]) 20 ;;
         if created r2 then
           j2 <- resp_json r2 ;;
           v <- subscript j2 "id" ;;
           z <- py_int v ;;
           ret (Some z)
         else
           log ("タグ作成失敗: " ++ name ++ " [" ++ str_Z (status_code r2) ++ "] "
                ++ py_take 120 (text r2)) ;;
           ret None
     end)
    (fun e =>
       log ("タグID取得/作成 例外: " ++ str_exn rt e) ;;
       ret None).

Definition upload_media (filepath : string) : M (option Z) :=
  try_except
    (let fname := basename filepath in
     let headers :=
       [("Content-Disposition", "attachment; filename=" ++ dquote ++ fname ++ dquote)] in
     let req := POST_file WP_MEDIA_URL wp_auth headers fname filepath "image/png" 60 in
     perform (FileOpen filepath) (open_rb w filepath) ;;
     r <- perform (Http req) (http w req) ;;
     if created r then
       j <- resp_json r ;;
       v <- py_get j "id" JNull ;;
       mid <- py_int v ;;
       log ("WP 画像アップ成功: id=" ++ str_Z mid) ;;
       ret (Some mid)
     else
       log ("WP 画像アップ失敗: [" ++ str_Z (status_code r) ++ "] " ++ py_take 200 (text r)) ;;
       ret None)
    (fun e =>
       log ("WP 画像アップ例外: " ++ str_exn rt e) ;;
       ret None).

Definition post_exists (slug : string) : M bool :=
  try_except
    (r <- requests_get WP_POSTS_URL [("slug", slug)] None 20 ;;
     if Z.eqb (status_code r) 200 then
       j <- resp_json r ;;
       match j with
       | JList l => ret (negb (is_nil l))
       | _ => ret false
       end
     else ret false)
    (fun e =>
       log ("既存チェック例外: " ++ str_exn rt e) ;;
       ret false).

Definition post_to_wp (title slug content_md : string) (featured_media : option Z)
    (tag_ids : list Z) : M value :=
  categories <-
    (if str_isdigit rt WP_CATEGORY_ID then
       match int_of_str rt WP_CATEGORY_ID with
       | Some z => ret [JInt z]
       | None => raise (ValueError "int")
       end
     else ret []) ;;
  let data :=
    ([("title", JStr title);
      ("slug", JStr slug);
      ("content", JStr content_md);
      ("status", JStr POST_STATUS);
      ("categories", JList categories);
      ("tags", JList (map JInt tag_ids))]
     ++ match featured_media with
        | Some m => if Z.eqb m 0 then [] else [("featured_media", JInt m)]
        | None => []
        end)%list in
  try_except
    (r <- requests_post_json WP_POSTS_URL wp_auth (JDict data) 60 ;;
     if created r then
       j <- resp_json r ;;
       link <- py_get j "link" JNull ;;
       url <- (if truthy link then ret link
               else
                 guid <- py_get j "guid" (JDict []) ;;
                 py_get guid "rendered" (JStr "")) ;;
       log ("投稿成功: " ++ py_str url) ;;
       ret url
     else
       log ("投稿失敗: [" ++ str_Z (status_code r) ++ "] " ++ py_take 300 (text r)) ;;
       ret JNull)
    (fun e =>
       log ("投稿例外: " ++ str_exn rt e) ;;
       ret JNull).

(** ** Main *)

Definition title : string := fmt_jp_date (now_jst w) ++ " 米国株・仮想通貨の市場レポート".
Definition slug : string := SLUG_PREFIX ++ "-" ++ fmt_slug (now_jst w).

(** [all([WP_BASE_URL, WP_USERNAME, WP_APP_PASSWORD])]. *)
Definition wp_configured : bool :=
  truthy_str WP_BASE_URL && truthy_str WP_USERNAME && truthy_str WP_APP_PASSWORD.

Definition tag_names : list string :=
  filter truthy_str (map py_strip (split "," WP_TAGS_RAW)).

(** [for nm in ...: tid = wp_tag_id_by_name(nm); if tid: tag_ids.append(tid)]. *)
Fixpoint resolve_tags (names : list string) (tag_ids : list Z) : M (list Z) :=
  match names with
  | [] => ret tag_ids
  | nm :: rest =>
      tid <- wp_tag_id_by_name nm ;;
      resolve_tags rest
        (match tid with
         | Some z => if Z.eqb z 0 then tag_ids else (tag_ids ++ [z])%list
         | None => tag_ids
         end)
  end.

(** Lines 344-365 of [main]: what runs once the duplicate check has
    answered no.  It is named so that statements can speak of the rest of
    the run. *)
Definition publish : M unit :=
  log "本文生成 フェーズ開始" ;;
  content_md <- build_article ;;
  tag_ids <- (if truthy_str WP_TAGS_RAW then resolve_tags tag_names [] else ret []) ;;
  img_path <- generate_feature_image ;;
  fm_id <- match img_path with
           | Some p => if truthy_str p then upload_media p else ret None
           | None => ret None
           end ;;
  url <- post_to_wp title slug content_md fm_id tag_ids ;;
  (if truthy url then log ("完了: " ++ py_str url) else ret tt) ;;
  log "=== 自動投稿タスク終了 ===".

Definition main : M unit :=
  log "=== 自動投稿タスク開始 ===" ;;
  if negb wp_configured then
    log "WP 設定不足。WP_BASE_URL, WP_USERNAME, WP_APP_PASSWORD を確認してください。"
  else
    dup <- post_exists slug ;;
    if dup then log "同スラッグ記事がすでに存在します。終了。"
    else publish.

(** ** Vocabulary of the statements *)

(** The price the provider holds for a ticker: the last daily close rounded
    to two places, absent when the request fails or the series is empty. *)
Definition latest_close (ticker : string) : option (float rt) :=
  match yf_history w ticker with
  | Returns data => option_map (round2 rt) (iloc_last data)
  | Throws _ => None
  end.

Definition fetch_failed (ticker : string) : Prop :=
  (exists e, yf_history w ticker = Throws e) \/ yf_history w ticker = Returns [].

(** The snapshot a list of (label, ticker) pairs should produce. *)
Definition snapshot (items : list (string * string)) : dict (option (float rt)) :=
  map (fun p => (fst p, latest_close (snd p))) items.

Definition m7_items : list (string * string) := map (fun t => (t, t)) m7_names.

(** One line of the dashboard image: [f"{k: <width}: {v}"]. *)
Definition image_row (width : nat) (kv : string * option (float rt)) : string :=
  ljust width (fst kv) ++ ": " ++ str_price (snd kv).

Definition news_request (ticker : string) : request :=
  GET (finnhub_url ticker) [] None 20.

(** The ways the news provider can fail to deliver a list. *)
Inductive news_unavailable (ticker : string) : Prop :=
| news_no_credential :
    FINNHUB_API_KEY = "" -> news_unavailable ticker
| news_transport_error (e : exn) :
    http w (news_request ticker) = Throws e -> news_unavailable ticker
| news_bad_status (r : response) :
    http w (news_request ticker) = Returns r -> status_code r <> 200%Z ->
    news_unavailable ticker
| news_error_payload (r : response) (d : list (string * value)) (v : value) :
    http w (news_request ticker) = Returns r -> json_body r = Returns (JDict d) ->
    dict_get "error" d = Some v -> truthy v = true ->
    news_unavailable ticker
| news_not_a_list (r : response) (j : value) :
    http w (news_request ticker) = Returns r -> json_body r = Returns j ->
    (forall l, j <> JList l) ->
    news_unavailable ticker.

(** A credential is absent when its variable is unset or empty. *)
Definition credential_missing (k : string) : Prop :=
  env w k = None \/ env w k = Some EmptyString.

Definition duplicate_request : request := GET WP_POSTS_URL [("slug", slug)] None 20.

(** The ways the duplicate check can fail to observe the CMS. *)
Inductive duplicate_check_fails : Prop :=
| check_transport_error (e : exn) :
    http w duplicate_request = Throws e -> duplicate_check_fails
| check_bad_status (r : response) :
    http w duplicate_request = Returns r -> status_code r <> 200%Z ->
    duplicate_check_fails
| check_not_json (r : response) (e : exn) :
    http w duplicate_request = Returns r -> status_code r = 200%Z ->
    json_body r = Throws e ->
    duplicate_check_fails
| check_not_a_list (r : response) (j : value) :
    http w duplicate_request = Returns r -> status_code r = 200%Z ->
    json_body r = Returns j -> (forall l, j <> JList l) ->
    duplicate_check_fails.

(** The ways the generative text path yields nothing for a context block. *)
Inductive generative_text_unavailable (ctx : string) : Prop :=
| text_no_client :
    client = false -> generative_text_unavailable ctx
| text_exception (e : exn) :
    chat_completions w sys_prompt (user_prompt ctx) = Throws e ->
    generative_text_unavailable ctx
| text_no_choice :
    chat_completions w sys_prompt (user_prompt ctx) = Returns [] ->
    generative_text_unavailable ctx
| text_no_content (rest : list (option string)) :
    chat_completions w sys_prompt (user_prompt ctx) = Returns (None :: rest) ->
    generative_text_unavailable ctx
| text_empty (content : string) (rest : list (option string)) :
    chat_completions w sys_prompt (user_prompt ctx) = Returns (Some content :: rest) ->
    py_strip content = EmptyString ->
    generative_text_unavailable ctx.

(** What [finnhub_company_news] returns, read off the provider's answer. *)
Definition news_digest (ticker : string) : list value :=
  if truthy_str FINNHUB_API_KEY then
    match http w (news_request ticker) with
    | Returns r =>
        if Z.eqb (status_code r) 200 then
          match json_body r with
          | Returns (JList l) => firstn 2 l
          | _ => []
          end
        else []
    | Throws _ => []
    end
  else [].

(** The figure the fallback of the image step renders. *)
Definition fallback_figure : figure :=
  dashboard_figure (snapshot dashboard_tickers) (snapshot m7_items).

Definition is_savefig (ev : event) : bool :=
  match ev with
  | SaveFig _ _ => true
  | _ => false
  end.

(** The duplicate check sees the CMS and finds no post. *)
Definition duplicate_check_empty : Prop :=
  exists r, http w duplicate_request = Returns r
            /\ status_code r = 200%Z
            /\ json_body r = Returns (JList []).

End Program.

Arguments Log {rt} msg.
Arguments Http {rt} r.
Arguments YfHistory {rt} ticker period.
Arguments OpenAIChat {rt} model temperature max_tokens system user.
Arguments OpenAIImage {rt} model prompt size.
Arguments FileWrite {rt} path content.
Arguments FileOpen {rt} path.
Arguments SaveFig {rt} path fig.
Arguments GET {rt} url params auth timeout.
Arguments POST_json {rt} url auth body timeout.
Arguments POST_file {rt} url auth headers fname path mime timeout.
Arguments events {rt A} m.
Arguments outcome_of {rt A} m.
Arguments is_network {rt} ev.
Arguments is_write {rt} ev.
Arguments is_log {rt} ev.
Arguments env {rt} _.
Arguments openai_installed {rt} _.
Arguments openai_client {rt} _.
Arguments now_jst {rt} _.
Arguments utcnow {rt} _.
Arguments getcwd {rt} _.
Arguments http {rt} _.
Arguments yf_history {rt} _.
Arguments chat_completions {rt} _.
Arguments images_generate {rt} _.
Arguments write_bytes {rt} _.
Arguments open_rb {rt} _.
Arguments savefig {rt} _.
Arguments status_code {rt} _.
Arguments text {rt} _.
Arguments json_body {rt} _.
Arguments getenv {rt} w : rename.
Arguments WP_BASE_URL {rt} w : rename.
Arguments WP_POSTS_URL {rt} w : rename.
Arguments WP_MEDIA_URL {rt} w : rename.
Arguments WP_TAGS_URL {rt} w : rename.
Arguments WP_USERNAME {rt} w : rename.
Arguments WP_APP_PASSWORD {rt} w : rename.
Arguments WP_CATEGORY_ID {rt} w : rename.
Arguments POST_STATUS {rt} w : rename.
Arguments WP_TAGS_RAW {rt} w : rename.
Arguments FINNHUB_API_KEY {rt} w : rename.
Arguments OPENAI_API_KEY {rt} w : rename.
Arguments SLUG_PREFIX {rt} w : rename.
Arguments client {rt} w : rename.
Arguments wp_auth {rt} w : rename.
Arguments requests_get {rt} w : rename.
Arguments requests_post_json {rt} w : rename.
Arguments http_json {rt} w : rename.
Arguments price_of {rt} w : rename.
Arguments fetch_prices {rt} w : rename.
Arguments market_dashboard {rt} w : rename.
Arguments m7_prices {rt} w : rename.
Arguments finnhub_url {rt} w : rename.
Arguments finnhub_company_news {rt} w : rename.
Arguments news_lines {rt} w : rename.
Arguments build_context_text {rt} w : rename.
Arguments long_article_by_openai {rt} w : rename.
Arguments long_article_fallback {rt} w : rename.
Arguments build_article {rt} w : rename.
Arguments feature_path {rt} w : rename.
Arguments dashboard_figure {rt} w : rename.
Arguments generate_feature_image {rt} w : rename.
Arguments wp_tag_id_by_name {rt} w : rename.
Arguments upload_media {rt} w : rename.
Arguments post_exists {rt} w : rename.
Arguments post_to_wp {rt} w : rename.
Arguments title {rt} w : rename.
Arguments slug {rt} w : rename.
Arguments wp_configured {rt} w : rename.
Arguments tag_names {rt} w : rename.
Arguments resolve_tags {rt} w : rename.
Arguments publish {rt} w : rename.
Arguments main {rt} w : rename.
Arguments latest_close {rt} w : rename.
Arguments fetch_failed {rt} w : rename.
Arguments snapshot {rt} w : rename.
Arguments news_request {rt} w : rename.
Arguments news_unavailable {rt} w : rename.
Arguments credential_missing {rt} w : rename.
Arguments duplicate_request {rt} w : rename.
Arguments duplicate_check_fails {rt} w : rename.
Arguments generative_text_unavailable {rt} w : rename.
Arguments news_digest {rt} w : rename.
Arguments fallback_figure {rt} w : rename.
Arguments duplicate_check_empty {rt} w : rename.
Arguments is_savefig {rt} ev.
Arguments ret {rt A} a.
Arguments raise {rt A} e.
Arguments bind {rt A B} m f.
Arguments try_except {rt A} m h.
Arguments perform {rt A} ev o.

(** A line [msg] was logged; the market data provider was asked for a ticker. *)
Definition logged {rt : runtime} (msg : string) (evs : list (event rt)) : bool :=
  existsb (fun ev => match ev with
                     | Log m => String.eqb m msg
                     | _ => false
                     end) evs.

Definition asks_history {rt : runtime} (ticker : string) (evs : list (event rt)) : bool :=
  existsb (fun ev => match ev with
                     | YfHistory t _ => String.eqb t ticker
                     | _ => false
                     end) evs.

(** ** Sample runtime and worlds

    A runtime where a price is a number of hundredths, and a few worlds on
    which the program is evaluated. *)

Definition sample_runtime : runtime := {|
  float := Z;
  round2 := fun x => x;
  str_float := fun x => str_Z (x / 100) ++ "." ++ pad2 (Z.to_nat (x mod 100));
  float_truthy := fun x => negb (Z.eqb x 0);
  int_of_float := fun x => Some (x / 100)%Z;
  int_of_str := fun s => option_map Z.of_int (NilZero.int_of_string s);
  str_isdigit := fun s => match NilZero.uint_of_string s with
                          | Some _ => truthy_str s
                          | None => false
                          end;
  repr_json := fun _ => "[...]";
  str_exn := fun e => match e with
                      | ExternalError m => m
                      | AttributeError a => a
                      | TypeError a => a
                      | KeyError a => a
                      | IndexError a => a
                      | ValueError a => a
                      end;
  b64decode := fun s => Some s
|}.

Definition march_1st : datetime :=
  {| year := 2025; month := 3; day := 1; hour := 9; minute := 5; second := 7 |}.

Definition march_2nd : datetime :=
  {| year := 2025; month := 3; day := 2; hour := 9; minute := 5; second := 7 |}.

Definition cms_env : string -> option string :=
  fun k => dict_get k [("WP_BASE_URL", "https://blog.example/");
                       ("WP_USERNAME", "bot");
                       ("WP_APP_PASSWORD", "secret")].

Definition cms_and_news_env : string -> option string :=
  fun k => dict_get k [("WP_BASE_URL", "https://blog.example/");
                       ("WP_USERNAME", "bot");
                       ("WP_APP_PASSWORD", "secret");
                       ("FINNHUB_API_KEY", "k3y")].

Definition answer (code : Z) (j : json (float sample_runtime))
    : outcome (response sample_runtime) :=
  Returns (Build_response sample_runtime code EmptyString (Returns j)).

(** No service answers. *)
Definition web_down (r : request sample_runtime) : outcome (response sample_runtime) :=
  Throws (ExternalError "connection refused").

(** A CMS that holds a post for the slug it is asked about. *)
Definition web_with_duplicate (r : request sample_runtime)
    : outcome (response sample_runtime) :=
  match r with
  | GET _ _ _ _ => answer 200 (JList [JDict [("id", JInt 41)]])
  | _ => Throws (ExternalError "connection refused")
  end.

(** Reads time out, writes succeed. *)
Definition web_reads_fail (r : request sample_runtime)
    : outcome (response sample_runtime) :=
  match r with
  | GET _ _ _ _ => Throws (ExternalError "read timed out")
  | POST_json _ _ _ _ =>
      answer 201 (JDict [("id", JInt 9); ("link", JStr "https://blog.example/?p=9")])
  | POST_file _ _ _ _ _ _ _ => answer 201 (JDict [("id", JInt 5)])
  end.

(** Every read answers with an empty list. *)
Definition web_empty_lists (r : request sample_runtime)
    : outcome (response sample_runtime) :=
  match r with
  | GET _ _ _ _ => answer 200 (JList [])
  | _ => Throws (ExternalError "connection refused")
  end.

(** The news provider (the one read without parameters) sends an item whose
    headline is null; the CMS holds no post and no tag. *)
Definition web_null_headline (r : request sample_runtime)
    : outcome (response sample_runtime) :=
  match r with
  | GET _ [] _ _ => answer 200 (JList [JDict [("headline", JNull); ("url", JStr "u")]])
  | GET _ _ _ _ => answer 200 (JList [])
  | _ => Throws (ExternalError "connection refused")
  end.

Definition sample_history (t : string) : outcome (list (float sample_runtime)) :=
  if String.eqb t "^VIX" then Returns [1850%Z; 1912%Z]
  else if String.eqb t "AAPL" then Throws (ExternalError "timeout")
  else Returns [].

Definition sample_world (vars : string -> option string) (clock : datetime)
    (web : request sample_runtime -> outcome (response sample_runtime))
    (render : outcome unit) : world sample_runtime := {|
  env := vars;
  openai_installed := true;
  openai_client := fun _ => Returns tt;
  now_jst := clock;
  utcnow := clock;
  getcwd := "/srv/fintrend";
  http := web;
  yf_history := sample_history;
  chat_completions := fun _ _ => Throws (ExternalError "no client");
  images_generate := fun _ => Throws (ExternalError "no client");
  write_bytes := fun _ _ => Returns tt;
  open_rb := fun _ => Returns tt;
  savefig := fun _ _ => render
|}.

Definition offline : world sample_runtime :=
  sample_world cms_env march_1st web_down (Returns tt).
Definition offline_next_day : world sample_runtime :=
  sample_world cms_env march_2nd web_down (Returns tt).
Definition unconfigured : world sample_runtime :=
  sample_world (fun _ => None) march_1st web_down (Returns tt).
Definition duplicate_present : world sample_runtime :=
  sample_world cms_env march_1st web_with_duplicate (Returns tt).
Definition check_unreachable : world sample_runtime :=
  sample_world cms_env march_1st web_reads_fail (Returns tt).
Definition quiet_news : world sample_runtime :=
  sample_world cms_and_news_env march_1st web_empty_lists (Returns tt).
Definition null_headline : world sample_runtime :=
  sample_world cms_and_news_env march_1st web_null_headline (Returns tt).
Definition render_fails : world sample_runtime :=
  sample_world cms_env march_1st web_down (Throws (ExternalError "cannot write image")).

(** The context block of the offline world. *)
Definition offline_context : string :=
  Eval vm_compute in
    match outcome_of (build_context_text offline) with
    | Ok ctx => ctx
    | Raise _ => EmptyString
    end.

(** ** Further vocabulary: the rest of the source *)

(** [s.endswith(c)] for a single character [c]. *)
Definition endswith_char (c : ascii) (s : string) : bool :=
  match string_rev s with
  | String a _ => Ascii.eqb a c
  | EmptyString => false
  end.

(** [ensure_slash] (lines 75-76 of the source). *)
Definition ensure_slash (url : string) : string :=
  if endswith_char "/" url then url else url ++ "/".

(** [s.startswith(p)]. *)
Fixpoint startswith (p s : string) : bool :=
  match p with
  | EmptyString => true
  | String x p' =>
      match s with
      | EmptyString => false
      | String y s' => Ascii.eqb x y && startswith p' s'
      end
  end.

Fixpoint all_chars (c : ascii) (s : string) : bool :=
  match s with
  | EmptyString => true
  | String a r => Ascii.eqb a c && all_chars c r
  end.

(** A clock reading whose month, day, hour and minute take two digits at
    most, as every calendar date does. *)
Definition valid_clock (d : datetime) : Prop :=
  month d < 100 /\ day d < 100 /\ hour d < 100 /\ minute d < 100.

Definition same_minute (d1 d2 : datetime) : Prop :=
  year d1 = year d2 /\ month d1 = month d2 /\ day d1 = day d2
  /\ hour d1 = hour d2 /\ minute d1 = minute d2.

(** Reading a zero-padded number back. *)
Definition unpad (s : string) : option nat :=
  option_map Nat.of_uint (NilZero.uint_of_string s).

(** [pad n] has the given width and reads back as [n]. *)
Definition pad_ok (width : nat) (pad : nat -> string) (n : nat) : bool :=
  (String.length (pad n) =? width)
  && match unpad (pad n) with
     | Some m => m =? n
     | None => false
     end.

Section Coverage.

Variable rt : runtime.

Local Abbreviation value := (json (float rt)).

Definition is_openai (ev : event rt) : bool :=
  match ev with
  | OpenAIChat _ _ _ _ _ | OpenAIImage _ _ _ => true
  | _ => false
  end.

Definition is_http (ev : event rt) : bool :=
  match ev with
  | Http _ => true
  | _ => false
  end.

Definition is_history (ev : event rt) : bool :=
  match ev with
  | YfHistory _ _ => true
  | _ => false
  end.

Definition request_url (r : request rt) : string :=
  match r with
  | GET url _ _ _ => url
  | POST_json url _ _ _ => url
  | POST_file url _ _ _ _ _ _ => url
  end.

Definition request_auth (r : request rt) : option (string * string) :=
  match r with
  | GET _ _ auth _ => auth
  | POST_json _ auth _ _ => auth
  | POST_file _ auth _ _ _ _ _ => auth
  end.

Variable w : world rt.

(** What one price fetch leaves in the trace: the request, and a log line
    when the provider raised. *)
Definition price_events (ticker : string) : list (event rt) :=
  YfHistory ticker "1d"
  :: match yf_history w ticker with
     | Throws e => [Log ("yfinance 価格取得失敗: " ++ ticker ++ " | " ++ str_exn rt e)]
     | Returns _ => []
     end.

(** The JSON document a GET brings back, when it does. *)
Definition fetched_json (url : string) (ps : list (string * string)) : option value :=
  match http w (GET url ps None 20) with
  | Returns r =>
      if Z.eqb (status_code r) 200 then
        match json_body r with
        | Returns j => Some j
        | Throws _ => None
        end
      else None
  | Throws _ => None
  end.

Definition tag_search (name : string) : request rt :=
  GET (WP_TAGS_URL w) [("search", name)] (wp_auth w) 20.

Definition tag_create (name : string) : request rt :=
  POST_json (WP_TAGS_URL w) (wp_auth w) (JDict [("name", JStr name)]) 20.

(** The tag search answered, and did not bring a non-empty list. *)
Definition search_misses (r : response rt) : bool :=
  if Z.eqb (status_code r) 200 then
    match json_body r with
    | Returns (JList (_ :: _)) => false
    | Returns _ => true
    | Throws _ => false
    end
  else true.

Definition media_request (filepath : string) : request rt :=
  POST_file (WP_MEDIA_URL w) (wp_auth w)
    [("Content-Disposition",
      "attachment; filename=" ++ dquote ++ basename filepath ++ dquote)]
    (basename filepath) filepath "image/png" 60.

(** The category setting can be turned into the list of the post body. *)
Definition category_ok : bool :=
  if str_isdigit rt (WP_CATEGORY_ID w) then
    match int_of_str rt (WP_CATEGORY_ID w) with
    | Some _ => true
    | None => false
    end
  else true.

(** The image bytes the generative branch obtains, when it does. *)
Definition generated_png : option string :=
  match images_generate w image_prompt with
  | Returns img =>
      match img_data img with
      | Some (item :: _) =>
          match b64_json item with
          | Some (Some s) => b64decode rt s
          | _ => None
          end
      | _ => None
      end
  | Throws _ => None
  end.

(** The generative branch ran and left the image on disk. *)
Definition image_saved : bool :=
  client w
  && match generated_png with
     | Some png =>
         match write_bytes w (feature_path w) png with
         | Returns _ => true
         | Throws _ => false
         end
     | None => false
     end.

(** The events of the fallback of the image step. *)
Definition fallback_events : list (event rt) :=
  (events (market_dashboard w) ++ events (m7_prices w)
   ++ [SaveFig (feature_path w) (fallback_figure w)])%list.

(** A news item the context assembler can format: a dict whose headline,
    when present, is a string. *)
Definition news_item_ok (n : value) : bool :=
  match n with
  | JDict d =>
      match dict_get "headline" d with
      | Some (JStr _) | None => true
      | Some _ => false
      end
  | _ => false
  end.

(** The line of a news item: [f"  - {ttl} ({url})"]. *)
Definition item_line (n : value) : string :=
  match n with
  | JDict d =>
      "  - "
      ++ match dict_get "headline" d with
         | Some (JStr s) => py_strip s
         | _ => EmptyString
         end
      ++ " ("
      ++ py_str rt (match dict_get "url" d with
                    | Some u => u
                    | None => JStr EmptyString
                    end)
      ++ ")"
  | _ => EmptyString
  end.

(** The lines of one ticker: nothing when its digest is empty. *)
Definition news_block (t : string) : list string :=
  match news_digest w t with
  | [] => []
  | ns => ("- " ++ t ++ ":") :: map item_line ns
  end.

(** The price lines of the context block, up to the news header. *)
Definition price_lines : list string :=
  ([header_dash] ++ map (quote_line rt) (snapshot w dashboard_tickers)
   ++ [header_m7] ++ map (quote_line rt) (snapshot w m7_items)
   ++ [header_news])%list.

(** An event the generative branch of the image step can leave. *)
Definition branch_only (ev : event rt) : bool :=
  match ev with
  | OpenAIImage _ _ _ | FileWrite _ _ | Log _ => true
  | _ => false
  end.

(** How the fallback render ends. *)
Definition render_outcome : result (option string) :=
  match savefig w (feature_path w) (fallback_figure w) with
  | Returns _ => Ok (Some (feature_path w))
  | Throws e => Raise e
  end.

(** All the items of all the digests can be formatted. *)
Definition news_well_formed (tickers : list string) : bool :=
  forallb (fun t => forallb news_item_ok (news_digest w t)) tickers.

(** The requests a run can send: reads without credentials, and requests
    with the configured credentials to the tag, media and post endpoints. *)
Definition expected_request (r : request rt) : bool :=
  match r with
  | GET _ _ None _ => true
  | GET url _ (Some a) _ =>
      String.eqb url (WP_TAGS_URL w)
      && String.eqb (fst a) (WP_USERNAME w) && String.eqb (snd a) (WP_APP_PASSWORD w)
  | POST_json url (Some a) _ _ =>
      (String.eqb url (WP_TAGS_URL w) || String.eqb url (WP_POSTS_URL w))
      && String.eqb (fst a) (WP_USERNAME w) && String.eqb (snd a) (WP_APP_PASSWORD w)
  | POST_file url (Some a) _ _ _ _ _ =>
      String.eqb url (WP_MEDIA_URL w)
      && String.eqb (fst a) (WP_USERNAME w) && String.eqb (snd a) (WP_APP_PASSWORD w)
  | _ => false
  end.

(** The events a run can leave: the generative service and the file it
    writes appear only with a client. *)
Definition expected_event (ev : event rt) : bool :=
  match ev with
  | Log _ | YfHistory _ _ | FileOpen _ | SaveFig _ _ => true
  | Http r => expected_request r
  | OpenAIChat _ _ _ _ _ | OpenAIImage _ _ _ | FileWrite _ _ => client w
  end.

(** A write to the CMS carries the configured credentials. *)
Definition write_is_authenticated (ev : event rt) : bool :=
  match ev with
  | Http (POST_json _ (Some a) _ _) | Http (POST_file _ (Some a) _ _ _ _ _) =>
      String.eqb (fst a) (WP_USERNAME w) && String.eqb (snd a) (WP_APP_PASSWORD w)
  | Http (POST_json _ None _ _) | Http (POST_file _ None _ _ _ _ _) => false
  | _ => true
  end.

(** How the publish steps end: only the article, the image and an unfit
    category setting can raise. *)
Definition publish_outcome : result unit :=
  match outcome_of (build_article w) with
  | Raise e => Raise e
  | Ok _ =>
      match outcome_of (generate_feature_image w) with
      | Raise e => Raise e
      | Ok _ => if category_ok then Ok tt else Raise (ValueError "int")
      end
  end.

(** The twelve price requests of one pass over the indicators and the
    basket. *)
Definition all_price_requests : list (event rt) :=
  map (fun p => YfHistory (snd p) "1d") (dashboard_tickers ++ m7_items)%list.

(** A request with credentials is addressed to the CMS. *)
Definition auth_stays_home (ev : event rt) : bool :=
  match ev with
  | Http r =>
      match request_auth r with
      | Some _ => startswith (WP_BASE_URL w) (request_url r)
      | None => true
      end
  | _ => true
  end.

End Coverage.

Arguments is_openai {rt} ev.
Arguments is_http {rt} ev.
Arguments is_history {rt} ev.
Arguments request_url {rt} r.
Arguments request_auth {rt} r.
Arguments price_events {rt} w ticker.
Arguments fetched_json {rt} w url ps.
Arguments tag_search {rt} w name.
Arguments tag_create {rt} w name.
Arguments search_misses {rt} r.
Arguments media_request {rt} w filepath.
Arguments category_ok {rt} w.
Arguments generated_png {rt} w.
Arguments image_saved {rt} w.
Arguments fallback_events {rt} w.
Arguments news_item_ok {rt} n.
Arguments item_line {rt} n.
Arguments news_block {rt} w t.
Arguments price_lines {rt} w.
Arguments auth_stays_home {rt} w ev.
Arguments branch_only {rt} ev.
Arguments all_price_requests {rt}.
Arguments news_well_formed {rt} w tickers.
Arguments expected_request {rt} w r.
Arguments expected_event {rt} w ev.
Arguments write_is_authenticated {rt} w ev.
Arguments publish_outcome {rt} w.
Arguments render_outcome {rt} w.

(** Two more sample worlds: a generative service that is configured but
    down, and one that answers. *)

Definition cms_and_openai_env : string -> option string :=
  fun k => dict_get k [("WP_BASE_URL", "https://blog.example/");
                       ("WP_USERNAME", "bot");
                       ("WP_APP_PASSWORD", "secret");
                       ("OPENAI_API_KEY", "sk-sample")].

Definition openai_down : world sample_runtime :=
  sample_world cms_and_openai_env march_1st web_down (Returns tt).

Definition openai_up : world sample_runtime := {|
  env := cms_and_openai_env;
  openai_installed := true;
  openai_client := fun _ => Returns tt;
  now_jst := march_1st;
  utcnow := march_1st;
  getcwd := "/srv/fintrend";
  http := web_reads_fail;
  yf_history := sample_history;
  chat_completions := fun _ _ => Returns [Some "  1. generated report  "];
  images_generate :=
    fun _ => Returns {| img_data := Some [{| b64_json := Some (Some "iVBORw0KGgo=") |}] |};
  write_bytes := fun _ _ => Returns tt;
  open_rb := fun _ => Returns tt;
  savefig := fun _ _ => Returns tt
|}.

(** The offline world with a base URL written without its slash, with a
    base URL of slashes only, and half a minute later. *)

Definition bare_base_env : string -> option string :=
  fun k => dict_get k [("WP_BASE_URL", "https://blog.example");
                       ("WP_USERNAME", "bot");
                       ("WP_APP_PASSWORD", "secret")].

Definition slashes_env : string -> option string :=
  fun k => dict_get k [("WP_BASE_URL", "//");
                       ("WP_USERNAME", "bot");
                       ("WP_APP_PASSWORD", "secret")].

Definition march_1st_later : datetime :=
  {| year := 2025; month := 3; day := 1; hour := 9; minute := 5; second := 40 |}.

Definition offline_bare : world sample_runtime :=
  sample_world bare_base_env march_1st web_down (Returns tt).
Definition slashes_only : world sample_runtime :=
  sample_world slashes_env march_1st web_down (Returns tt).
Definition offline_later : world sample_runtime :=
  sample_world cms_env march_1st_later web_down (Returns tt).

(** * Properties *)

(** ** Characters kept by the text operations *)

Lemma has_char_cons c a s : has_char c (String a s) <-> a = c \/ has_char c s.
Proof. unfold has_char; simpl; tauto. Qed.

Lemma has_char_app c a b : has_char c (a ++ b) <-> has_char c a \/ has_char c b.
Proof.
  induction a as [|x a IH]; simpl.
  - unfold has_char at 2; simpl; tauto.
  - rewrite !has_char_cons, IH; tauto.
Qed.

Lemma has_char_nonempty c s : has_char c s -> s <> EmptyString.
Proof. intros H ->; exact H. Qed.

Lemma has_char_split c sep s :
  c <> sep -> has_char c s -> exists l, In l (split sep s) /\ has_char c l.
Proof.
  intros Hne; induction s as [|a s IH]; intros H.
  - destruct H.
  - apply has_char_cons in H; simpl.
    destruct (Ascii.eqb_spec a sep) as [->|Ha].
    + destruct H as [H|H]; [congruence|].
      destruct (IH H) as (l & Hin & Hl); exists l; simpl; auto.
    + destruct (split sep s) as [|l0 ls] eqn:E.
      * destruct H as [H|H].
        -- exists (String a EmptyString); split; [now left|apply has_char_cons; auto].
        -- destruct (IH H) as (l & [] & _).
      * destruct H as [H|H].
        -- exists (String a l0); split; [now left|apply has_char_cons; auto].
        -- destruct (IH H) as (l & [Hin|Hin] & Hl).
           ++ subst l; exists (String a l0); split; [now left|apply has_char_cons; auto].
           ++ exists l; split; [now right|assumption].
Qed.

Lemma has_char_join c sep l ls :
  In l ls -> has_char c l -> has_char c (join sep ls).
Proof.
  unfold join; induction ls as [|x xs IH]; intros Hin Hl; [destruct Hin|].
  simpl; destruct xs as [|y ys].
  - destruct Hin as [->|[]]; assumption.
  - destruct Hin as [->|Hin].
    + apply has_char_app; auto.
    + apply has_char_app; right; apply has_char_app; right; apply IH; assumption.
Qed.

Lemma all_sp_tab_has_char c s :
  all_sp_tab s = true -> has_char c s -> is_sp_tab c = true.
Proof.
  induction s as [|a s IH]; simpl; intros Hall H; [destruct H|].
  apply andb_true_iff in Hall as [Ha Hs].
  apply has_char_cons in H as [<-|H]; auto.
Qed.

Lemma has_char_blank_line c l :
  is_sp_tab c = false -> has_char c l -> has_char c (blank_line l).
Proof.
  intros Hc H; unfold blank_line; destruct (all_sp_tab l) eqn:E; [|assumption].
  rewrite (all_sp_tab_has_char c l E H) in Hc; discriminate.
Qed.

Lemma all_sp_tab_indent_of l : all_sp_tab (indent_of l) = true.
Proof.
  induction l as [|a l IH]; simpl; [reflexivity|].
  destruct (is_sp_tab a) eqn:E; simpl; [rewrite E, IH|]; reflexivity.
Qed.

Lemma all_sp_tab_common_prefix a b :
  all_sp_tab a = true -> all_sp_tab (common_prefix a b) = true.
Proof.
  revert b; induction a as [|x a IH]; intros b H; simpl; [reflexivity|].
  destruct b as [|y b]; [reflexivity|].
  simpl in H; apply andb_true_iff in H as [Hx Ha].
  destruct (Ascii.eqb x y); simpl; [rewrite Hx, IH by assumption|]; reflexivity.
Qed.

Lemma margin_step_ok m l : margin_ok m -> margin_ok (margin_step m l).
Proof.
  unfold margin_step; intros H; destruct (String.eqb l ""); [assumption|].
  destruct m as [mg|]; simpl.
  - apply all_sp_tab_common_prefix; exact H.
  - apply all_sp_tab_indent_of.
Qed.

Lemma margin_of_ok lines : margin_ok (margin_of lines).
Proof.
  unfold margin_of.
  assert (G : forall m, margin_ok m -> margin_ok (fold_left margin_step lines m)).
  { induction lines as [|l ls IH]; simpl; intros m Hm; [assumption|].
    apply IH, margin_step_ok, Hm. }
  apply G; exact I.
Qed.

Lemma has_char_drop_prefix c p s r :
  all_sp_tab p = true -> is_sp_tab c = false ->
  drop_prefix p s = Some r -> has_char c s -> has_char c r.
Proof.
  revert s; induction p as [|x p IH]; simpl; intros s Hp Hc Hd H.
  - inversion Hd; subst; assumption.
  - destruct s as [|y s]; [discriminate|].
    apply andb_true_iff in Hp as [Hx Hp].
    destruct (Ascii.eqb_spec x y) as [->|]; [|discriminate].
    apply has_char_cons in H as [<-|H]; [congruence|].
    eapply IH; eauto.
Qed.

Lemma has_char_remove_margin c m l :
  all_sp_tab m = true -> is_sp_tab c = false ->
  has_char c l -> has_char c (remove_margin m l).
Proof.
  intros Hm Hc H; unfold remove_margin.
  destruct (drop_prefix m l) eqn:E; [|assumption].
  eapply has_char_drop_prefix; eauto.
Qed.

(** [dedent] removes spaces and tabs only. *)
Lemma has_char_dedent c text :
  is_sp_tab c = false -> c <> nl_char -> has_char c text -> has_char c (dedent text).
Proof.
  intros Hc Hnl H.
  destruct (has_char_split c nl_char text Hnl H) as (l & Hin & Hl).
  assert (Hb : In (blank_line l) (map blank_line (split nl_char text)))
    by (apply in_map; assumption).
  pose proof (has_char_blank_line c l Hc Hl) as Hbl.
  unfold dedent.
  pose proof (margin_of_ok (map blank_line (split nl_char text))) as Hm.
  destruct (margin_of (map blank_line (split nl_char text))) as [m|].
  - destruct (truthy_str m).
    + eapply has_char_join.
      * apply in_map; exact Hb.
      * apply has_char_remove_margin; assumption.
    + eapply has_char_join; eauto.
  - eapply has_char_join; eauto.
Qed.

Lemma has_char_rev_append c s acc :
  has_char c (string_rev_append s acc) <-> has_char c s \/ has_char c acc.
Proof.
  revert acc; induction s as [|a s IH]; intros acc; simpl.
  - unfold has_char at 2; simpl; tauto.
  - rewrite IH, !has_char_cons; tauto.
Qed.

Lemma has_char_rev c s : has_char c (string_rev s) <-> has_char c s.
Proof.
  unfold string_rev; rewrite has_char_rev_append.
  split; [intros [H|H]; [exact H|destruct H]|auto].
Qed.

Lemma solid_not_ws1 c a : solid c = true -> ws1 a = true -> a <> c.
Proof.
  unfold solid; intros H Ha ->; rewrite Ha in H; discriminate.
Qed.

Lemma solid_not_high c a : solid c = true -> 128 <= nat_of_ascii a -> a <> c.
Proof.
  unfold solid; intros H Ha ->.
  apply andb_true_iff in H as [_ H]; apply Nat.ltb_lt in H; lia.
Qed.

Lemma ws2_high a b : ws2 a b = true -> 128 <= nat_of_ascii a /\ 128 <= nat_of_ascii b.
Proof.
  unfold ws2; intros H.
  apply andb_true_iff in H as [Ha Hb]; apply Nat.eqb_eq in Ha.
  apply orb_true_iff in Hb as [Hb|Hb]; apply Nat.eqb_eq in Hb; lia.
Qed.

Lemma ws3_high a b c :
  ws3 a b c = true ->
  128 <= nat_of_ascii a /\ 128 <= nat_of_ascii b /\ 128 <= nat_of_ascii c.
Proof.
  unfold ws3; cbv zeta; intros H.
  repeat (apply orb_true_iff in H as [H|H]);
    repeat (apply andb_true_iff in H as [H ?]);
    repeat match goal with
           | G : (_ =? _) = true |- _ => apply Nat.eqb_eq in G
           | G : (_ <=? _) = true |- _ => apply Nat.leb_le in G
           | G : (_ || _) = true |- _ => apply orb_true_iff in G as [G|G]
           | G : (_ && _) = true |- _ => apply andb_true_iff in G as [G ?]
           end; lia.
Qed.

Ltac not_solid :=
  match goal with
  | Hc : solid ?c = true, Ha : 128 <= nat_of_ascii ?a, H : ?a = ?c |- _ =>
      exact (False_ind _ (solid_not_high c a Hc Ha H))
  | Hc : solid ?c = true, Ha : ws1 ?a = true, H : ?a = ?c |- _ =>
      exact (False_ind _ (solid_not_ws1 c a Hc Ha H))
  end.

Lemma has_char_ws_head c s r :
  solid c = true -> ws_head s = Some r -> has_char c s -> has_char c r.
Proof.
  intros Hc Hs H; unfold ws_head in Hs.
  destruct s as [|a r1]; [discriminate|].
  apply has_char_cons in H.
  destruct (ws1 a) eqn:E1.
  { inversion Hs; subst. destruct H as [H|H]; [|assumption].
    not_solid. }
  destruct r1 as [|b r2]; [discriminate|].
  destruct (ws2 a b) eqn:E2.
  { inversion Hs; subst. apply ws2_high in E2 as [Ha Hb].
    destruct H as [H|H]; [not_solid|].
    apply has_char_cons in H as [H|H]; [not_solid|assumption]. }
  destruct r2 as [|d r3]; [discriminate|].
  destruct (ws3 a b d) eqn:E3; [|discriminate].
  inversion Hs; subst. apply ws3_high in E3 as (Ha & Hb & Hd).
  destruct H as [H|H]; [not_solid|].
  apply has_char_cons in H as [H|H]; [not_solid|].
  apply has_char_cons in H as [H|H]; [not_solid|assumption].
Qed.

Lemma has_char_ws_last c s r :
  solid c = true -> ws_last s = Some r -> has_char c s -> has_char c r.
Proof.
  intros Hc Hs H; unfold ws_last in Hs.
  destruct s as [|a r1]; [discriminate|].
  apply has_char_cons in H.
  destruct (ws1 a) eqn:E1.
  { inversion Hs; subst. destruct H as [H|H]; [|assumption].
    not_solid. }
  destruct r1 as [|b r2]; [discriminate|].
  destruct (ws2 b a) eqn:E2.
  { inversion Hs; subst. apply ws2_high in E2 as [Hb Ha].
    destruct H as [H|H]; [not_solid|].
    apply has_char_cons in H as [H|H]; [not_solid|assumption]. }
  destruct r2 as [|d r3]; [discriminate|].
  destruct (ws3 d b a) eqn:E3; [|discriminate].
  inversion Hs; subst. apply ws3_high in E3 as (Hd & Hb & Ha).
  destruct H as [H|H]; [not_solid|].
  apply has_char_cons in H as [H|H]; [not_solid|].
  apply has_char_cons in H as [H|H]; [not_solid|assumption].
Qed.

Lemma has_char_strip_while c step :
  (forall s r, step s = Some r -> has_char c s -> has_char c r) ->
  forall fuel s, has_char c s -> has_char c (strip_while step fuel s).
Proof.
  intros Hstep; induction fuel as [|n IH]; intros s H; simpl; [assumption|].
  destruct (step s) eqn:E; [|assumption].
  apply IH; eapply Hstep; eauto.
Qed.

(** [strip] never removes a solid character. *)
Lemma has_char_py_strip c s :
  solid c = true -> has_char c s -> has_char c (py_strip s).
Proof.
  intros Hc H; unfold py_strip, py_rstrip, py_lstrip.
  apply has_char_rev, has_char_strip_while.
  - intros; eapply has_char_ws_last; eauto.
  - apply has_char_rev, has_char_strip_while; [|assumption].
    intros; eapply has_char_ws_head; eauto.
Qed.

(** ** The monad *)

Section Facts.

Variable rt : runtime.
Variable w : world rt.

Local Abbreviation value := (json (float rt)).

Lemma run_bind {A B : Type} (m : M rt A) (f : A -> M rt B) :
  bind m f =
  ((events m ++ match outcome_of m with
                | Ok a => events (f a)
                | Raise _ => []
                end)%list,
   match outcome_of m with
   | Ok a => outcome_of (f a)
   | Raise e => Raise e
   end).
Proof.
  destruct m as [t [a|e]]; simpl.
  - destruct (f a); reflexivity.
  - rewrite app_nil_r; reflexivity.
Qed.

Lemma outcome_bind {A B : Type} (m : M rt A) (f : A -> M rt B) :
  outcome_of (bind m f) =
  match outcome_of m with
  | Ok a => outcome_of (f a)
  | Raise e => Raise e
  end.
Proof. rewrite run_bind; reflexivity. Qed.

Lemma events_bind {A B : Type} (m : M rt A) (f : A -> M rt B) :
  events (bind m f) =
  (events m ++ match outcome_of m with
               | Ok a => events (f a)
               | Raise _ => []
               end)%list.
Proof. rewrite run_bind; reflexivity. Qed.

Lemma run_eta {A : Type} (m : M rt A) : m = (events m, outcome_of m).
Proof. destruct m; reflexivity. Qed.

(** ** The collectors *)

Lemma http_json_run (url : string) (ps : list (string * string)) :
  http_json w url ps =
  match http w (GET url ps None 20) with
  | Throws e =>
      ([Http (GET url ps None 20);
        Log ("http_json例外: " ++ url ++ " | " ++ str_exn rt e)], Ok JNull)
  | Returns r =>
      if Z.eqb (status_code r) 200 then
        match json_body r with
        | Returns j => ([Http (GET url ps None 20)], Ok j)
        | Throws e =>
            ([Http (GET url ps None 20);
              Log ("http_json例外: " ++ url ++ " | " ++ str_exn rt e)], Ok JNull)
        end
      else
        ([Http (GET url ps None 20);
          Log ("http_json 失敗: " ++ url ++ " [" ++ str_Z (status_code r) ++ "] "
               ++ py_take 150 (text r))], Ok JNull)
  end.
Proof.
  unfold http_json, requests_get, resp_json.
  destruct (http w (GET url ps None 20)) as [r|e]; simpl; [|reflexivity].
  destruct (Z.eqb (status_code r) 200); simpl; [|reflexivity].
  destruct (json_body r); reflexivity.
Qed.

Lemma price_of_outcome (ticker : string) :
  outcome_of (price_of w ticker) = Ok (latest_close w ticker).
Proof.
  unfold price_of, latest_close.
  destruct (yf_history w ticker) as [data|e]; simpl; [|reflexivity].
  destruct (iloc_last data); reflexivity.
Qed.

Lemma fetch_prices_outcome (items : list (string * string)) :
  forall out,
    outcome_of (fetch_prices w items out) =
    Ok (fold_left (fun d p => dict_set d (fst p) (latest_close w (snd p))) items out).
Proof.
  induction items as [|[name tkr] rest IH]; intros out; simpl; [reflexivity|].
  rewrite outcome_bind, price_of_outcome; apply IH.
Qed.

Lemma dict_set_fresh {V : Type} (d : dict V) (k : string) (v : V) :
  ~ In k (map fst d) -> dict_set d k v = (d ++ [(k, v)])%list.
Proof.
  induction d as [|[k' v'] d IH]; simpl; intros H; [reflexivity|].
  destruct (String.eqb_spec k' k) as [->|Hne]; [tauto|].
  rewrite IH by tauto; reflexivity.
Qed.

Lemma fold_dict_set_fresh {V : Type} (f : string -> V) (items : list (string * string)) :
  forall out,
    NoDup (map fst items) ->
    (forall k, In k (map fst items) -> ~ In k (map fst out)) ->
    fold_left (fun d p => dict_set d (fst p) (f (snd p))) items out =
    (out ++ map (fun p => (fst p, f (snd p))) items)%list.
Proof.
  induction items as [|[name tkr] rest IH]; intros out Hnd Hfresh; simpl.
  - rewrite app_nil_r; reflexivity.
  - inversion Hnd as [|? ? Hnotin Hnd']; subst.
    rewrite dict_set_fresh by (apply Hfresh; now left).
    rewrite IH; [rewrite <- app_assoc; reflexivity|assumption|].
    intros k Hk; rewrite map_app, in_app_iff; simpl.
    intros [Hin|[<-|[]]].
    + exact (Hfresh k (or_intror Hk) Hin).
    + exact (Hnotin Hk).
Qed.

(** A batch over distinct labels yields the snapshot of its pairs, whatever
    the provider does on each of them. *)
Lemma fetch_prices_snapshot (items : list (string * string)) :
  NoDup (map fst items) ->
  outcome_of (fetch_prices w items []) = Ok (snapshot w items).
Proof.
  intros Hnd; rewrite fetch_prices_outcome.
  rewrite (fold_dict_set_fresh (latest_close w)); [reflexivity|assumption|].
  intros k _ [].
Qed.

Lemma NoDup_dashboard_labels : NoDup (map fst dashboard_tickers).
Proof.
  repeat (constructor; [simpl; intros H; repeat (destruct H as [H|H]; [discriminate|]); exact H|]).
  constructor.
Qed.

Lemma NoDup_m7_labels : NoDup (map fst m7_items).
Proof.
  repeat (constructor; [simpl; intros H; repeat (destruct H as [H|H]; [discriminate|]); exact H|]).
  constructor.
Qed.

Lemma market_dashboard_outcome :
  outcome_of (market_dashboard w) = Ok (snapshot w dashboard_tickers).
Proof. apply fetch_prices_snapshot, NoDup_dashboard_labels. Qed.

Lemma m7_prices_outcome :
  outcome_of (m7_prices w) = Ok (snapshot w m7_items).
Proof. apply (fetch_prices_snapshot m7_items), NoDup_m7_labels. Qed.

Lemma iloc_last_none {A : Type} (xs : list A) : iloc_last xs = None <-> xs = [].
Proof.
  split; [|intros ->; reflexivity].
  induction xs as [|x [|y r] IH]; simpl; intros H; [reflexivity|discriminate|].
  specialize (IH H); discriminate.
Qed.

(** C5: every batch over distinct labels, and so both market_dashboard and
    m7_prices, returns normally with one entry per label, in order; the entry
    is absent exactly when the fetch for its ticker raised or came back
    empty, and is the rounded last close otherwise. *)
Theorem C5_batch_isolates_ticker_failures :
  (forall items, NoDup (map fst items) ->
     outcome_of (fetch_prices w items []) = Ok (snapshot w items))
  /\ outcome_of (market_dashboard w) = Ok (snapshot w dashboard_tickers)
  /\ outcome_of (m7_prices w) = Ok (snapshot w m7_items)
  /\ (forall ticker, latest_close w ticker = None <-> fetch_failed w ticker)
  /\ (forall ticker data c,
        yf_history w ticker = Returns data -> iloc_last data = Some c ->
        latest_close w ticker = Some (round2 rt c)).
Proof.
  split; [exact fetch_prices_snapshot|].
  split; [exact market_dashboard_outcome|].
  split; [exact m7_prices_outcome|].
  split.
  - intros ticker; unfold latest_close, fetch_failed.
    destruct (yf_history w ticker) as [data|e].
    + destruct (iloc_last data) eqn:E; simpl.
      * split; [discriminate|].
        intros [[e He]|H]; [discriminate|].
        inversion H; subst; discriminate.
      * apply iloc_last_none in E; subst; split; auto.
    + split; eauto.
  - intros ticker data c Hd Hc; unfold latest_close; rewrite Hd, Hc; reflexivity.
Qed.


Lemma truthy_str_empty (s : string) : truthy_str s = false <-> s = EmptyString.
Proof.
  unfold truthy_str; destruct (String.eqb_spec s ""); simpl; split; congruence.
Qed.

Lemma firstn_2_length {A : Type} (l : list A) : length (firstn 2 l) <= 2.
Proof. destruct l as [|x [|y r]]; simpl; lia. Qed.

Lemma finnhub_company_news_outcome (ticker : string) :
  outcome_of (finnhub_company_news w ticker) = Ok (news_digest w ticker).
Proof.
  unfold finnhub_company_news, news_digest, news_request.
  destruct (truthy_str (FINNHUB_API_KEY w)); simpl; [|reflexivity].
  rewrite outcome_bind, http_json_run.
  destruct (http w _) as [r|e]; simpl; [|reflexivity].
  destruct (Z.eqb (status_code r) 200); simpl; [|reflexivity].
  destruct (json_body r) as [j|e]; simpl; [|reflexivity].
  destruct j as [|b|z|f|s|l|d]; cbn -[dict_get].
  - reflexivity.
  - destruct b; reflexivity.
  - destruct (Z.eqb z 0); reflexivity.
  - destruct (float_truthy rt f); reflexivity.
  - destruct (truthy_str s); reflexivity.
  - destruct l; reflexivity.
  - destruct d as [|kv d]; [reflexivity|]; cbn -[dict_get].
    destruct (dict_get "error" (kv :: d)) as [v|]; [destruct (truthy rt v)|]; reflexivity.
Qed.

(** C4: for every ticker the news collector returns normally with at most
    two items, the first two of the provider's list; a missing credential, a
    transport error, a non-200 answer, an error payload and a payload that
    is no list all give the same empty list. *)
Theorem C4_news_digest_total_and_bounded (ticker : string) :
  exists items,
    outcome_of (finnhub_company_news w ticker) = Ok items
    /\ length items <= 2
    /\ (news_unavailable w ticker -> items = [])
    /\ (forall r l,
          FINNHUB_API_KEY w <> EmptyString ->
          http w (news_request w ticker) = Returns r ->
          status_code r = 200%Z ->
          json_body r = Returns (JList l) ->
          items = firstn 2 l).
Proof.
  exists (news_digest w ticker).
  split; [apply finnhub_company_news_outcome|].
  unfold news_digest.
  split; [|split].
  - destruct (truthy_str (FINNHUB_API_KEY w)); [|simpl; lia].
    destruct (http w _) as [r|e]; [|simpl; lia].
    destruct (Z.eqb (status_code r) 200); [|simpl; lia].
    destruct (json_body r) as [[| | | | |l|]|]; simpl; try lia.
    apply firstn_2_length.
  - intros [Hkey|e He|r Hr Hs|r d v Hr Hj Hd Hv|r j Hr Hj Hl].
    + apply truthy_str_empty in Hkey; rewrite Hkey; reflexivity.
    + rewrite He; destruct (truthy_str (FINNHUB_API_KEY w)); reflexivity.
    + rewrite Hr; apply Z.eqb_neq in Hs; rewrite Hs; destruct (truthy_str (FINNHUB_API_KEY w)); reflexivity.
    + rewrite Hr, Hj; destruct (truthy_str (FINNHUB_API_KEY w)), (Z.eqb (status_code r) 200); reflexivity.
    + rewrite Hr, Hj; destruct (truthy_str (FINNHUB_API_KEY w)), (Z.eqb (status_code r) 200); try reflexivity.
      destruct j; try reflexivity. exfalso; eapply Hl; reflexivity.
  - intros r l Hkey Hr Hs Hj.
    destruct (truthy_str (FINNHUB_API_KEY w)) eqn:K.
    + rewrite Hr, Hs, Hj; reflexivity.
    + apply truthy_str_empty in K; contradiction.
Qed.

(** C9 as amended: without a credential the provider is not called and
    nothing is logged; an empty list from the provider is returned after the
    one request, and nothing is logged either.  Both return the empty list. *)
Theorem C9_missing_credential_and_empty_result_log_nothing (ticker : string) :
  (FINNHUB_API_KEY w = EmptyString ->
     finnhub_company_news w ticker = ([], Ok []))
  /\ (forall r,
        FINNHUB_API_KEY w <> EmptyString ->
        http w (news_request w ticker) = Returns r ->
        status_code r = 200%Z ->
        json_body r = Returns (JList []) ->
        finnhub_company_news w ticker = ([Http (news_request w ticker)], Ok [])).
Proof.
  unfold finnhub_company_news, news_request; split.
  - intros Hkey; apply truthy_str_empty in Hkey; rewrite Hkey; reflexivity.
  - intros r Hkey Hr Hs Hj.
    destruct (truthy_str (FINNHUB_API_KEY w)) eqn:K;
      [|apply truthy_str_empty in K; contradiction].
    simpl; rewrite http_json_run, Hr, Hs, Hj; reflexivity.
Qed.

(** ** The run *)

Lemma getenv_missing (k : string) :
  credential_missing w k -> getenv w k EmptyString = EmptyString.
Proof. unfold getenv; intros [H|H]; rewrite H; reflexivity. Qed.

Lemma wp_configured_missing :
  credential_missing w "WP_BASE_URL" \/ credential_missing w "WP_USERNAME"
  \/ credential_missing w "WP_APP_PASSWORD" ->
  wp_configured w = false.
Proof.
  unfold wp_configured, WP_BASE_URL, WP_USERNAME, WP_APP_PASSWORD.
  intros [H|[H|H]]; rewrite (getenv_missing _ H); simpl.
  - reflexivity.
  - rewrite andb_false_r; reflexivity.
  - apply andb_false_r.
Qed.

(** C7: when the base URL, the user name or the application password is
    unset or empty, the run is the two log lines and nothing else: it
    returns before any request to the market data, news, generative or CMS
    services. *)
Theorem C7_missing_cms_credential_aborts_before_any_call :
  credential_missing w "WP_BASE_URL" \/ credential_missing w "WP_USERNAME"
  \/ credential_missing w "WP_APP_PASSWORD" ->
  main w =
    ([Log "=== 自動投稿タスク開始 ===";
      Log "WP 設定不足。WP_BASE_URL, WP_USERNAME, WP_APP_PASSWORD を確認してください。"],
     Ok tt)
  /\ existsb is_network (events (main w)) = false.
Proof.
  intros H; apply wp_configured_missing in H.
  assert (E : main w =
    ([Log "=== 自動投稿タスク開始 ===";
      Log "WP 設定不足。WP_BASE_URL, WP_USERNAME, WP_APP_PASSWORD を確認してください。"],
     Ok tt)).
  { unfold main; rewrite H; reflexivity. }
  split; [exact E|rewrite E; reflexivity].
Qed.

Lemma post_exists_run (s : string) :
  post_exists w s =
  match http w (GET (WP_POSTS_URL w) [("slug", s)] None 20) with
  | Throws e =>
      ([Http (GET (WP_POSTS_URL w) [("slug", s)] None 20);
        Log ("既存チェック例外: " ++ str_exn rt e)], Ok false)
  | Returns r =>
      if Z.eqb (status_code r) 200 then
        match json_body r with
        | Returns (JList l) =>
            ([Http (GET (WP_POSTS_URL w) [("slug", s)] None 20)], Ok (negb (is_nil l)))
        | Returns _ => ([Http (GET (WP_POSTS_URL w) [("slug", s)] None 20)], Ok false)
        | Throws e =>
            ([Http (GET (WP_POSTS_URL w) [("slug", s)] None 20);
              Log ("既存チェック例外: " ++ str_exn rt e)], Ok false)
        end
      else ([Http (GET (WP_POSTS_URL w) [("slug", s)] None 20)], Ok false)
  end.
Proof.
  unfold post_exists, requests_get, resp_json.
  destruct (http w _) as [r|e]; simpl; [|reflexivity].
  destruct (Z.eqb (status_code r) 200); simpl; [|reflexivity].
  destruct (json_body r) as [[| | | | | |]|]; reflexivity.
Qed.

Lemma main_configured :
  wp_configured w = true ->
  main w =
  bind (log rt "=== 自動投稿タスク開始 ===")
       (fun _ => bind (post_exists w (slug w))
                      (fun dup => if dup then log rt "同スラッグ記事がすでに存在します。終了。"
                                  else publish w)).
Proof. intros H; unfold main; rewrite H; reflexivity. Qed.

(** C2: when the duplicate query answers 200 with a non-empty list, the
    whole run is the start line, the query, and the line saying that the
    post exists; no POST of any kind is issued, and no other request. *)
Theorem C2_duplicate_slug_performs_no_write
    (r : response rt) (first : value) (rest : list value) :
  wp_configured w = true ->
  http w (duplicate_request w) = Returns r ->
  status_code r = 200%Z ->
  json_body r = Returns (JList (first :: rest)) ->
  main w =
    ([Log "=== 自動投稿タスク開始 ===";
      Http (duplicate_request w);
      Log "同スラッグ記事がすでに存在します。終了。"],
     Ok tt)
  /\ existsb is_write (events (main w)) = false.
Proof.
  intros Hc Hr Hs Hj.
  assert (E : main w =
    ([Log "=== 自動投稿タスク開始 ===";
      Http (duplicate_request w);
      Log "同スラッグ記事がすでに存在します。終了。"],
     Ok tt)).
  { rewrite (main_configured Hc), post_exists_run.
    unfold duplicate_request in Hr; rewrite Hr, Hs, Hj; reflexivity. }
  split; [exact E|rewrite E; reflexivity].
Qed.

Lemma post_exists_fails_open :
  duplicate_check_fails w ->
  outcome_of (post_exists w (slug w)) = Ok false
  /\ exists notes,
       events (post_exists w (slug w)) = Http (duplicate_request w) :: notes
       /\ forallb is_log notes = true.
Proof.
  intros [e He|r Hr Hs|r e Hr Hs Hj|r j Hr Hs Hj Hl];
    unfold duplicate_request in *; rewrite post_exists_run.
  - rewrite He; split; [reflexivity|eexists; split; reflexivity].
  - rewrite Hr; apply Z.eqb_neq in Hs; rewrite Hs.
    split; [reflexivity|eexists; split; reflexivity].
  - rewrite Hr, Hs, Hj; split; [reflexivity|eexists; split; reflexivity].
  - rewrite Hr, Hs, Hj.
    destruct j; try (split; [reflexivity|eexists; split; reflexivity]).
    exfalso; eapply Hl; reflexivity.
Qed.

Lemma failed_check_proceeds :
  wp_configured w = true ->
  duplicate_check_fails w ->
  exists notes,
    forallb is_log notes = true
    /\ events (main w) =
       (Log "=== 自動投稿タスク開始 ===" :: Http (duplicate_request w) :: notes
        ++ events (publish w))%list
    /\ outcome_of (main w) = outcome_of (publish w).
Proof.
  intros Hc Hf.
  destruct (post_exists_fails_open Hf) as (Ho & notes & He & Hn).
  rewrite (main_configured Hc), !run_bind; simpl.
  rewrite Ho, He; exists notes; auto.
Qed.

Lemma empty_check_proceeds :
  wp_configured w = true ->
  duplicate_check_empty w ->
  events (main w) =
    (Log "=== 自動投稿タスク開始 ===" :: Http (duplicate_request w) :: events (publish w))%list
  /\ outcome_of (main w) = outcome_of (publish w).
Proof.
  intros Hc (r & Hr & Hs & Hj).
  rewrite (main_configured Hc), !run_bind, post_exists_run.
  unfold duplicate_request in *; rewrite Hr, Hs, Hj; simpl; auto.
Qed.

(** ** Context text and dashboard image *)

Lemma news_item_lines_extends (ns : list value) :
  forall parts parts',
    outcome_of (news_item_lines rt ns parts) = Ok parts' ->
    exists extra, parts' = (parts ++ extra)%list.
Proof.
  induction ns as [|n rest IH]; simpl; intros parts parts' H.
  - inversion H; subst; exists []; rewrite app_nil_r; reflexivity.
  - rewrite outcome_bind in H.
    destruct (outcome_of (py_get rt n "headline" (JStr ""))) as [h|e]; [|discriminate].
    rewrite outcome_bind in H.
    destruct (outcome_of (str_strip rt h)) as [ttl|e]; [|discriminate].
    rewrite outcome_bind in H.
    destruct (outcome_of (py_get rt n "url" (JStr ""))) as [url|e]; [|discriminate].
    destruct (IH _ _ H) as [extra ->].
    eexists; rewrite <- app_assoc; reflexivity.
Qed.

Lemma news_lines_extends (tickers : list string) :
  forall parts parts',
    outcome_of (news_lines w tickers parts) = Ok parts' ->
    exists extra, parts' = (parts ++ extra)%list.
Proof.
  induction tickers as [|t rest IH]; simpl; intros parts parts' H.
  - inversion H; subst; exists []; rewrite app_nil_r; reflexivity.
  - rewrite outcome_bind, finnhub_company_news_outcome, outcome_bind in H.
    destruct (is_nil (news_digest w t)).
    + simpl in H; eapply IH; eassumption.
    + destruct (outcome_of (news_item_lines rt _ _)) as [parts1|e] eqn:E; [|discriminate].
      apply news_item_lines_extends in E as [extra1 ->].
      apply IH in H as [extra2 ->].
      eexists; rewrite <- !app_assoc; reflexivity.
Qed.

Lemma build_context_text_shape (ctx : string) :
  outcome_of (build_context_text w) = Ok ctx ->
  exists news,
    ctx = join nl ([header_dash] ++ map (quote_line rt) (snapshot w dashboard_tickers)
                   ++ [header_m7] ++ map (quote_line rt) (snapshot w m7_items)
                   ++ [header_news] ++ news)%list.
Proof.
  unfold build_context_text; intros H.
  rewrite outcome_bind, market_dashboard_outcome in H.
  rewrite outcome_bind, m7_prices_outcome in H.
  rewrite outcome_bind in H.
  destruct (outcome_of (news_lines w news_tickers _)) as [parts|e] eqn:E; [|discriminate].
  apply news_lines_extends in E as [news ->].
  inversion H; subst; exists news.
  f_equal; simpl; f_equal;
    rewrite <- ?app_assoc; simpl; rewrite <- ?app_assoc; reflexivity.
Qed.

Lemma text_rows_texts (width : nat) (items : dict (option (float rt))) :
  forall y, map tx_text (fst (text_rows rt width items y)) = map (image_row rt width) items.
Proof.
  induction items as [|[k v] rest IH]; intros y; simpl; [reflexivity|].
  specialize (IH (y - 5)%Z).
  destruct (text_rows rt width rest (y - 5)%Z) as [ts y']; simpl in *.
  rewrite IH; reflexivity.
Qed.

Lemma dashboard_figure_texts (dash m7 : dict (option (float rt))) :
  map tx_text (fig_texts (dashboard_figure w dash m7)) =
  (fmt_dash (now_jst w) :: "■ 主要指標" :: map (image_row rt 12) dash
   ++ "■ Magnificent 7" :: map (image_row rt 5) m7)%list.
Proof.
  unfold dashboard_figure.
  pose proof (text_rows_texts 12 dash (95 - 8 - 6)%Z) as H1.
  destruct (text_rows rt 12 dash (95 - 8 - 6)%Z) as [rows1 y3]; simpl in H1.
  pose proof (text_rows_texts 5 m7 (y3 - 2 - 6)%Z) as H2.
  destruct (text_rows rt 5 m7 (y3 - 2 - 6)%Z) as [rows2 y6]; simpl in H2.
  simpl; rewrite map_app; simpl; rewrite H1, H2; reflexivity.
Qed.

Lemma price_of_no_savefig (ticker : string) :
  forallb (fun ev => negb (is_savefig ev)) (events (price_of w ticker)) = true.
Proof.
  unfold price_of; destruct (yf_history w ticker) as [data|e]; simpl; [|reflexivity].
  destruct (iloc_last data); reflexivity.
Qed.

Lemma fetch_prices_no_savefig (items : list (string * string)) :
  forall out,
    forallb (fun ev => negb (is_savefig ev)) (events (fetch_prices w items out)) = true.
Proof.
  induction items as [|[name tkr] rest IH]; intros out; simpl; [reflexivity|].
  rewrite events_bind, forallb_app, price_of_no_savefig, price_of_outcome; apply IH.
Qed.

Lemma bind_ret {A B : Type} (a : A) (f : A -> M rt B) : bind (ret a) f = f a.
Proof. unfold bind, ret; destruct (f a); reflexivity. Qed.

(** With no client the image step is the two snapshots and the render. *)
Lemma generate_feature_image_without_client :
  client w = false ->
  generate_feature_image w =
  ((events (market_dashboard w) ++ events (m7_prices w)
    ++ [SaveFig (feature_path w) (fallback_figure w)])%list,
   match savefig w (feature_path w) (fallback_figure w) with
   | Returns _ => Ok (Some (feature_path w))
   | Throws e => Raise e
   end).
Proof.
  intros Hc; unfold generate_feature_image; rewrite Hc, bind_ret.
  rewrite run_bind, market_dashboard_outcome.
  rewrite run_bind, m7_prices_outcome.
  fold (fallback_figure w); unfold perform; simpl.
  destruct (savefig w (feature_path w) (fallback_figure w)); reflexivity.
Qed.

(** Every render the image step asks for is the fallback figure. *)
Lemma generate_feature_image_renders (path : string) (fig : figure) :
  In (SaveFig path fig) (events (generate_feature_image w)) ->
  path = feature_path w /\ fig = (fallback_figure w).
Proof.
  unfold generate_feature_image; rewrite events_bind.
  set (first := if client w then _ else ret None).
  assert (Hfirst : forallb (fun ev => negb (is_savefig ev)) (events first) = true).
  { subst first; destruct (client w); [|reflexivity].
    unfold try_except, perform; simpl.
    destruct (images_generate w image_prompt) as [img|e]; simpl; [|reflexivity].
    destruct (img_data img) as [[|item items]|]; simpl; try reflexivity.
    destruct (b64_json item) as [[s|]|]; simpl; try reflexivity.
    destruct (b64decode rt s) as [png|]; simpl; [|reflexivity].
    destruct (write_bytes w (feature_path w) png); reflexivity. }
  rewrite in_app_iff; intros [H|H].
  - rewrite forallb_forall in Hfirst; specialize (Hfirst _ H); discriminate.
  - destruct (outcome_of first) as [[out|]|e]; simpl in H; try contradiction.
    rewrite events_bind, market_dashboard_outcome in H.
    rewrite events_bind, m7_prices_outcome in H.
    fold (fallback_figure w) in H.
    rewrite !in_app_iff in H; destruct H as [H|[H|H]].
    + pose proof (fetch_prices_no_savefig dashboard_tickers []) as Hq.
      rewrite forallb_forall in Hq; specialize (Hq _ H); discriminate.
    + pose proof (fetch_prices_no_savefig m7_items []) as Hq.
      rewrite forallb_forall in Hq; specialize (Hq _ H); discriminate.
    + unfold perform in H; simpl in H.
      destruct (savefig w (feature_path w) (fallback_figure w)); simpl in H;
        destruct H as [H|[]]; inversion H; auto.
Qed.


(** ** The article *)

Lemma has_char_of_existsb (c : ascii) (s : string) :
  existsb (Ascii.eqb c) (list_ascii_of_string s) = true -> has_char c s.
Proof.
  intros H; apply existsb_exists in H as (x & Hin & Hx).
  apply Ascii.eqb_eq in Hx; subst; exact Hin.
Qed.

(** The fallback text holds the digit that opens the template, whatever the
    context block is. *)
Lemma long_article_fallback_nonempty (ctx : string) :
  long_article_fallback w ctx <> EmptyString.
Proof.
  apply (has_char_nonempty "1"); unfold long_article_fallback.
  apply has_char_py_strip; [reflexivity|].
  apply has_char_dedent; [reflexivity|discriminate|].
  unfold fallback_template; apply has_char_app; left.
  apply has_char_of_existsb; reflexivity.
Qed.

Lemma long_article_by_openai_total (ctx : string) :
  exists t,
    outcome_of (long_article_by_openai w ctx) = Ok t
    /\ (generative_text_unavailable w ctx -> t = None \/ t = Some EmptyString).
Proof.
  unfold long_article_by_openai.
  destruct (client w) eqn:Hc; simpl.
  - unfold try_except, perform; simpl.
    destruct (chat_completions w sys_prompt (user_prompt ctx))
      as [[|[content|] rest]|e] eqn:Hchat; simpl;
      (eexists; split; [reflexivity|]);
      intros [Hn|e' He|He|rest' He|content' rest' He Hs]; auto; try congruence.
    inversion He; subst; right; congruence.
  - exists None; auto.
Qed.

Lemma build_article_outcome (ctx : string) :
  outcome_of (build_context_text w) = Ok ctx ->
  exists t,
    outcome_of (long_article_by_openai w ctx) = Ok t
    /\ outcome_of (build_article w) =
       Ok (match t with
           | Some s => if truthy_str s then s else long_article_fallback w ctx
           | None => long_article_fallback w ctx
           end).
Proof.
  intros Hctx; destruct (long_article_by_openai_total ctx) as (t & Ht & _).
  exists t; split; [exact Ht|].
  unfold build_article; rewrite outcome_bind, Hctx, outcome_bind, Ht; reflexivity.
Qed.

Lemma build_article_nonempty (ctx : string) :
  outcome_of (build_context_text w) = Ok ctx ->
  exists text, outcome_of (build_article w) = Ok text /\ text <> EmptyString.
Proof.
  intros Hctx; destruct (build_article_outcome ctx Hctx) as (t & _ & Hb).
  eexists; split; [exact Hb|].
  destruct t as [s|]; [|apply long_article_fallback_nonempty].
  destruct (truthy_str s) eqn:E; [|apply long_article_fallback_nonempty].
  intros ->; discriminate.
Qed.

Lemma build_article_falls_back (ctx : string) :
  outcome_of (build_context_text w) = Ok ctx ->
  generative_text_unavailable w ctx ->
  outcome_of (build_article w) = Ok (long_article_fallback w ctx).
Proof.
  intros Hctx Hun.
  destruct (long_article_by_openai_total ctx) as (t & Ht & Hnone).
  unfold build_article; rewrite outcome_bind, Hctx, outcome_bind, Ht.
  destruct (Hnone Hun) as [->| ->]; reflexivity.
Qed.

End Facts.

(** ** The duplicate check *)

(** C10: when the duplicate query raises, answers with another status than
    200, or answers with something that is no list (or no JSON at all),
    post_exists returns False and the run goes on with the publish steps:
    its events are the start line, the query with at most log lines about
    it, and then those of the publish steps, whose outcome is the outcome
    of the run.  A run whose query finds no post goes on in the same way. *)
Theorem C10_failed_duplicate_check_fails_open (rt : runtime) (w : world rt) :
  wp_configured w = true ->
  duplicate_check_fails w ->
  outcome_of (post_exists w (slug w)) = Ok false
  /\ (exists notes,
        forallb is_log notes = true
        /\ events (main w) =
           (Log "=== 自動投稿タスク開始 ===" :: Http (duplicate_request w) :: notes
            ++ events (publish w))%list
        /\ outcome_of (main w) = outcome_of (publish w))
  /\ (forall w0 : world rt,
        wp_configured w0 = true ->
        duplicate_check_empty w0 ->
        events (main w0) =
          (Log "=== 自動投稿タスク開始 ===" :: Http (duplicate_request w0)
           :: events (publish w0))%list
        /\ outcome_of (main w0) = outcome_of (publish w0)).
Proof.
  intros Hc Hf.
  split; [exact (proj1 (post_exists_fails_open rt w Hf))|].
  split; [exact (failed_check_proceeds rt w Hc Hf)|].
  intros w0; apply empty_check_proceeds.
Qed.

(** The fallback text is a function of the calendar date and the context
    block alone. *)
Lemma long_article_fallback_same_date (rt : runtime) (w1 w2 : world rt) (ctx : string) :
  year (now_jst w1) = year (now_jst w2) ->
  month (now_jst w1) = month (now_jst w2) ->
  day (now_jst w1) = day (now_jst w2) ->
  long_article_fallback w1 ctx = long_article_fallback w2 ctx.
Proof.
  intros Hy Hm Hd; unfold long_article_fallback, fmt_jp_date.
  rewrite Hy, Hm, Hd; reflexivity.
Qed.

(** C3 as amended: whenever the context block is assembled, build_article
    returns a non-empty text; when the generative path is unavailable (no
    client, an exception, no choice, no content, or a blank reply) the text
    is the fallback template, stripped and dedented, around the date of the
    run and the context block; that text is never empty and is the same in
    any run of the same calendar date with the same context block. *)
Theorem C3_article_is_nonempty_and_falls_back_to_the_dated_template
    (rt : runtime) (w : world rt) (ctx : string) :
  outcome_of (build_context_text w) = Ok ctx ->
  (exists text, outcome_of (build_article w) = Ok text /\ text <> EmptyString)
  /\ (generative_text_unavailable w ctx ->
      outcome_of (build_article w) = Ok (long_article_fallback w ctx))
  /\ long_article_fallback w ctx =
     py_strip (dedent (template_head ++ fmt_jp_date (now_jst w) ++ template_mid
                       ++ ctx ++ template_tail))
  /\ long_article_fallback w ctx <> EmptyString
  /\ (forall w' : world rt,
        year (now_jst w') = year (now_jst w) ->
        month (now_jst w') = month (now_jst w) ->
        day (now_jst w') = day (now_jst w) ->
        long_article_fallback w' ctx = long_article_fallback w ctx).
Proof.
  intros Hctx.
  split; [exact (build_article_nonempty rt w ctx Hctx)|].
  split; [exact (build_article_falls_back rt w ctx Hctx)|].
  split; [reflexivity|].
  split; [exact (long_article_fallback_nonempty rt w ctx)|].
  intros w'; apply long_article_fallback_same_date.
Qed.

(** ** The context assembler across two runs *)

Lemma news_lines_congruence (rt : runtime) (w1 w2 : world rt) (tickers : list string) :
  (forall t, In t tickers ->
     outcome_of (finnhub_company_news w1 t) = outcome_of (finnhub_company_news w2 t)) ->
  forall parts,
    outcome_of (news_lines w1 tickers parts) = outcome_of (news_lines w2 tickers parts).
Proof.
  induction tickers as [|t rest IH]; intros H parts; simpl; [reflexivity|].
  rewrite !outcome_bind, (H t (or_introl eq_refl)).
  destruct (outcome_of (finnhub_company_news w2 t)) as [ns|e]; [|reflexivity].
  rewrite !outcome_bind.
  destruct (outcome_of (if is_nil ns then _ else _)) as [parts'|e]; [|reflexivity].
  apply IH; intros t' Ht'; apply H; now right.
Qed.

(** C6 as amended: build_context_text fetches its three inputs itself; two
    runs in which the macro snapshot, the basket snapshot and the digest of
    each of the seven news tickers come back the same end the same way, with
    the same text block. *)
Theorem C6_context_text_is_determined_by_the_collected_data
    (rt : runtime) (w1 w2 : world rt) :
  outcome_of (market_dashboard w1) = outcome_of (market_dashboard w2) ->
  outcome_of (m7_prices w1) = outcome_of (m7_prices w2) ->
  (forall t, In t news_tickers ->
     outcome_of (finnhub_company_news w1 t) = outcome_of (finnhub_company_news w2 t)) ->
  outcome_of (build_context_text w1) = outcome_of (build_context_text w2).
Proof.
  intros Hd Hm Hn; unfold build_context_text.
  rewrite (outcome_bind rt (market_dashboard w1)), (outcome_bind rt (market_dashboard w2)), Hd.
  destruct (outcome_of (market_dashboard w2)) as [dash|e]; [|reflexivity].
  rewrite (outcome_bind rt (m7_prices w1)), (outcome_bind rt (m7_prices w2)), Hm.
  destruct (outcome_of (m7_prices w2)) as [m7|e]; [|reflexivity].
  rewrite !outcome_bind, (news_lines_congruence rt w1 w2 news_tickers Hn).
  reflexivity.
Qed.

(** ** The program on the sample worlds *)

Lemma offline_context_assembled :
  outcome_of (build_context_text offline) = Ok offline_context.
Proof. vm_compute; reflexivity. Qed.

(** The fallback article of the offline world keeps the indentation of the
    template, because the lines of the context block carry none. *)
Example offline_article_opening :
  exists rest,
    outcome_of (build_article offline) =
    Ok ("1. 本日の市場サマリー（2025年03月01日）" ++ nl ++ "    本レポートでは" ++ rest).
Proof. eexists; vm_compute; reflexivity. Qed.

(** C1: two errors below the post creation end the run with an uncaught
    exception.  When the Matplotlib render raises, generate_feature_image
    raises too: the run stops at the render, which is its last event, so
    nothing is logged about it and no upload or post creation follows.
    When the news provider sends an item whose headline is null,
    build_article raises and the run stops before any write. *)
Theorem C1_uncaught_errors_end_the_run :
  client render_fails = false
  /\ outcome_of (generate_feature_image render_fails)
     = Raise (ExternalError "cannot write image")
  /\ outcome_of (main render_fails) = Raise (ExternalError "cannot write image")
  /\ is_savefig (last (events (main render_fails)) (Log EmptyString)) = true
  /\ existsb is_write (events (main render_fails)) = false
  /\ outcome_of (build_article null_headline) = Raise (AttributeError "strip")
  /\ outcome_of (main null_headline) = Raise (AttributeError "strip")
  /\ existsb is_write (events (main null_headline)) = false.
Proof. repeat split; vm_compute; reflexivity. Qed.

(** C2 on a CMS that holds the post. *)
Lemma C2_duplicate_present_run :
  main duplicate_present =
    ([Log "=== 自動投稿タスク開始 ===";
      Http (duplicate_request duplicate_present);
      Log "同スラッグ記事がすでに存在します。終了。"],
     Ok tt)
  /\ existsb is_write (events (main duplicate_present)) = false.
Proof.
  eapply (C2_duplicate_slug_performs_no_write sample_runtime duplicate_present);
    reflexivity.
Defined.

(** C3, as stated, fails: with the generative path disabled and the same
    context block, the runs of two consecutive days return different texts. *)
Lemma C3_fallback_text_changes_with_the_date :
  client offline = false /\ client offline_next_day = false
  /\ outcome_of (build_context_text offline) = Ok offline_context
  /\ outcome_of (build_context_text offline_next_day) = Ok offline_context
  /\ exists t1 t2,
       outcome_of (build_article offline) = Ok t1
       /\ outcome_of (build_article offline_next_day) = Ok t2
       /\ t1 <> t2.
Proof.
  split; [reflexivity|]. split; [reflexivity|].
  split; [vm_compute; reflexivity|]. split; [vm_compute; reflexivity|].
  eexists; eexists.
  split; [vm_compute; reflexivity|]. split; [vm_compute; reflexivity|].
  apply String.eqb_neq; vm_compute; reflexivity.
Qed.

(** C3 as amended, on the offline world. *)
Lemma C3_offline_article :
  (exists text, outcome_of (build_article offline) = Ok text /\ text <> EmptyString)
  /\ outcome_of (build_article offline) = Ok (long_article_fallback offline offline_context).
Proof.
  assert (Hctx : outcome_of (build_context_text offline) = Ok offline_context)
    by (vm_compute; reflexivity).
  destruct (C3_article_is_nonempty_and_falls_back_to_the_dated_template
              sample_runtime offline offline_context Hctx)
    as (Hne & Hfb & _).
  split; [exact Hne|].
  apply Hfb; apply text_no_client; reflexivity.
Defined.

(** C6, as stated, fails: assembling the context asks the market data
    provider, over the network. *)
Lemma C6_context_assembly_calls_the_network :
  asks_history "^VIX" (events (build_context_text offline)) = true
  /\ existsb is_network (events (build_context_text offline)) = true.
Proof. split; vm_compute; reflexivity. Qed.

(** C6 as amended, on two runs a day apart. *)
Lemma C6_same_data_same_context :
  outcome_of (build_context_text offline) = outcome_of (build_context_text offline_next_day).
Proof.
  apply (C6_context_text_is_determined_by_the_collected_data
           sample_runtime offline offline_next_day).
  - vm_compute; reflexivity.
  - vm_compute; reflexivity.
  - intros t _; reflexivity.
Defined.

(** C7 on a world with no configuration at all. *)
Lemma C7_unconfigured_run :
  main unconfigured =
    ([Log "=== 自動投稿タスク開始 ===";
      Log "WP 設定不足。WP_BASE_URL, WP_USERNAME, WP_APP_PASSWORD を確認してください。"],
     Ok tt)
  /\ existsb is_network (events (main unconfigured)) = false.
Proof.
  apply (C7_missing_cms_credential_aborts_before_any_call sample_runtime unconfigured).
  left; left; reflexivity.
Defined.

(** C9, as stated, fails: the run without a credential and the run whose
    provider answers with an empty list return the same empty list and
    write the same log lines, namely none. *)
Lemma C9_logs_do_not_tell_missing_credential_from_empty_result :
  FINNHUB_API_KEY offline = EmptyString
  /\ FINNHUB_API_KEY quiet_news <> EmptyString
  /\ http quiet_news (news_request quiet_news "AAPL") = answer 200 (JList [])
  /\ outcome_of (finnhub_company_news offline "AAPL") = Ok []
  /\ outcome_of (finnhub_company_news quiet_news "AAPL") = Ok []
  /\ filter is_log (events (finnhub_company_news offline "AAPL")) = []
  /\ filter is_log (events (finnhub_company_news quiet_news "AAPL")) = [].
Proof.
  split; [reflexivity|]. split; [discriminate|].
  repeat split; reflexivity.
Qed.

(** C10 on a CMS whose reads time out while its writes succeed: the post
    is created although the check could not see the CMS. *)
Lemma C10_unseen_duplicate_is_published :
  outcome_of (post_exists check_unreachable (slug check_unreachable)) = Ok false
  /\ outcome_of (main check_unreachable) = Ok tt
  /\ logged "投稿成功: https://blog.example/?p=9" (events (main check_unreachable)) = true
  /\ existsb is_write (events (main check_unreachable)) = true.
Proof.
  destruct (C10_failed_duplicate_check_fails_open sample_runtime check_unreachable)
    as (Hfalse & _ & _).
  - reflexivity.
  - eapply check_transport_error; reflexivity.
  - split; [exact Hfalse|].
    repeat split; vm_compute; reflexivity.
Defined.

(** * More of the program *)

(** ** Events of a given kind *)

Section Traces.

Variable rt : runtime.
Variable P : event rt -> bool.

Lemma all_ret {A : Type} (a : A) : forallb P (events (ret (rt := rt) a)) = true.
Proof. reflexivity. Qed.

Lemma all_raise {A : Type} (e : exn) : forallb P (events (raise (rt := rt) (A := A) e)) = true.
Proof. reflexivity. Qed.

Lemma all_log (msg : string) : P (Log msg) = true -> forallb P (events (log rt msg)) = true.
Proof. intros H; simpl; rewrite H; reflexivity. Qed.

Lemma all_perform {A : Type} (ev : event rt) (o : outcome A) :
  P ev = true -> forallb P (events (perform ev o)) = true.
Proof. intros H; simpl; rewrite H; reflexivity. Qed.

Lemma all_bind {A B : Type} (m : M rt A) (f : A -> M rt B) :
  forallb P (events m) = true ->
  (forall a, forallb P (events (f a)) = true) ->
  forallb P (events (bind m f)) = true.
Proof.
  intros Hm Hf; rewrite events_bind, forallb_app, Hm; simpl.
  destruct (outcome_of m); [apply Hf|reflexivity].
Qed.

Lemma all_try {A : Type} (m : M rt A) (h : exn -> M rt A) :
  forallb P (events m) = true ->
  (forall e, forallb P (events (h e)) = true) ->
  forallb P (events (try_except m h)) = true.
Proof.
  intros Hm Hh; destruct m as [t [a|e]]; simpl in *; [assumption|].
  specialize (Hh e); destruct (h e) as [t' r]; simpl in *.
  rewrite forallb_app, Hm, Hh; reflexivity.
Qed.

End Traces.

(** Splits a goal about all events of a computation along its binds. *)
Ltac all_events :=
  repeat first
    [ apply all_ret
    | apply all_raise
    | apply all_log; reflexivity
    | apply all_perform; reflexivity
    | apply all_bind; [|intros]
    | apply all_try; [|intros]
    | match goal with
      | |- context [match ?x with _ => _ end] => destruct x
      | |- context [if ?x then _ else _] => destruct x
      end ].

(** Destructs every scrutinee a run depends on. *)
Ltac run_cases :=
  repeat (simpl;
          match goal with
          | |- context [match ?x with _ => _ end] =>
              lazymatch x with
              | context [match _ with _ => _ end] => fail
              | _ => destruct x
              end
          end);
  simpl.

Section More.

Variable rt : runtime.
Variable w : world rt.

Local Abbreviation value := (json (float rt)).

Lemma bind_pair_ok {A B : Type} (t : list (event rt)) (a : A) (f : A -> M rt B) :
  bind (t, Ok a) f = ((t ++ events (f a))%list, outcome_of (f a)).
Proof. unfold bind; destruct (f a); reflexivity. Qed.

(** ** Prices *)

Lemma price_of_events (ticker : string) :
  events (price_of w ticker) = price_events w ticker.
Proof.
  unfold price_of, price_events.
  destruct (yf_history w ticker) as [data|e]; simpl; [|reflexivity].
  destruct (iloc_last data); reflexivity.
Qed.

(** X1: a batch of price fetches asks the provider once per pair, in the
    order of the pairs, and writes a log line right after a request exactly
    when that request raised; an empty series leaves no log line. *)
Theorem X1_batch_trace_is_one_request_per_ticker (items : list (string * string)) :
  forall out,
    events (fetch_prices w items out)
    = flat_map (fun p => price_events w (snd p)) items
    /\ filter is_network (events (fetch_prices w items out))
       = map (fun p => YfHistory (snd p) "1d") items.
Proof.
  induction items as [|[name tkr] rest IH]; intros out; [split; reflexivity|].
  simpl fetch_prices; rewrite (events_bind rt), price_of_events, (price_of_outcome rt w).
  destruct (IH (dict_set out name (latest_close w tkr))) as [IH1 IH2].
  split.
  - simpl; rewrite IH1; reflexivity.
  - rewrite filter_app, IH2; unfold price_events; simpl.
    destruct (yf_history w tkr); reflexivity.
Qed.

(** ** http_json *)

(** X2: http_json never raises and sends exactly one GET, without
    credentials; it returns the decoded document and logs nothing when the
    answer is a 200 that decodes, and returns None with exactly one log line
    in every other case. *)
Theorem X2_http_json_never_raises_and_logs_each_failure
    (url : string) (ps : list (string * string)) :
  outcome_of (http_json w url ps)
  = Ok (match fetched_json w url ps with
        | Some j => j
        | None => JNull
        end)
  /\ filter is_network (events (http_json w url ps)) = [Http (GET url ps None 20)]
  /\ length (filter is_log (events (http_json w url ps)))
     = match fetched_json w url ps with
       | Some _ => 0
       | None => 1
       end.
Proof.
  rewrite (http_json_run rt w); unfold fetched_json.
  destruct (http w (GET url ps None 20)) as [r|e]; [|repeat split].
  destruct (Z.eqb (status_code r) 200); [|repeat split].
  destruct (json_body r); repeat split.
Qed.

(** ** Tags *)

Lemma wp_tag_id_by_name_total (name : string) :
  exists r, outcome_of (wp_tag_id_by_name w name) = Ok r.
Proof.
  unfold wp_tag_id_by_name, requests_get, requests_post_json, resp_json,
    subscript, py_int, created, log, try_except, bind, perform, ret, raise.
  run_cases; eexists; reflexivity.
Qed.

(** X3: wp_tag_id_by_name never raises; it starts with the search request,
    sends at most two requests, and its only possible write is the one
    creation request for the name. *)
Theorem X3_tag_lookup_never_raises_and_writes_at_most_once (name : string) :
  (exists r, outcome_of (wp_tag_id_by_name w name) = Ok r)
  /\ (exists rest, events (wp_tag_id_by_name w name) = Http (tag_search w name) :: rest)
  /\ length (filter is_network (events (wp_tag_id_by_name w name))) <= 2
  /\ (filter is_write (events (wp_tag_id_by_name w name)) = []
      \/ filter is_write (events (wp_tag_id_by_name w name)) = [Http (tag_create w name)]).
Proof.
  split; [apply wp_tag_id_by_name_total|].
  unfold wp_tag_id_by_name, requests_get, requests_post_json, resp_json,
    subscript, py_int, created, log, try_except, bind, perform, ret, raise,
    tag_search, tag_create.
  run_cases; (split; [eexists; reflexivity|]); (split; [lia|]); auto.
Qed.

(** X4: when the search answers 200 with a non-empty list whose first
    entry has an integer id, that id is returned after the search alone:
    no tag is created and nothing is logged. *)
Theorem X4_tag_found_by_search_is_not_created
    (name : string) (r : response rt) (d : list (string * value))
    (others : list value) (z : Z) :
  http w (tag_search w name) = Returns r ->
  status_code r = 200%Z ->
  json_body r = Returns (JList (JDict d :: others)) ->
  dict_get "id" d = Some (JInt z) ->
  wp_tag_id_by_name w name = ([Http (tag_search w name)], Ok (Some z)).
Proof.
  unfold tag_search; intros Hr Hs Hj Hd.
  unfold wp_tag_id_by_name, requests_get, resp_json, subscript, py_int.
  rewrite Hr; cbn -[dict_get]; rewrite Hs, Hj; cbn -[dict_get]; rewrite Hd; reflexivity.
Qed.

(** X5: a tag is created exactly when the search was answered and brought
    no non-empty list (another status than 200, an empty list, or a document
    that is no list); when the search request raises, or its 200 answer does
    not decode, no creation is attempted. *)
Theorem X5_tag_is_created_only_after_an_answered_empty_search (name : string) :
  existsb is_write (events (wp_tag_id_by_name w name))
  = match http w (tag_search w name) with
    | Returns r => search_misses r
    | Throws _ => false
    end.
Proof.
  unfold wp_tag_id_by_name, requests_get, requests_post_json, resp_json,
    subscript, py_int, created, log, try_except, bind, perform, ret, raise,
    tag_search, search_misses.
  destruct (http w _) as [r|e]; [|reflexivity].
  destruct (Z.eqb (status_code r) 200).
  - destruct (json_body r) as [[| | | | |[|x l]|]|]; run_cases; reflexivity.
  - run_cases; reflexivity.
Qed.

(** X6: the tag loop never raises, whatever the CMS does on each name; it
    appends at most one id per name, never the id 0, and keeps the ids
    already collected. *)
Theorem X6_tag_loop_never_raises_and_skips_failures (names : list string) :
  forall tag_ids,
  exists ids,
    outcome_of (resolve_tags w names tag_ids) = Ok (tag_ids ++ ids)%list
    /\ length ids <= length names
    /\ Forall (fun z => z <> 0%Z) ids.
Proof.
  induction names as [|nm rest IH]; intros tag_ids; simpl.
  - exists []; rewrite app_nil_r; repeat split; auto.
  - destruct (wp_tag_id_by_name_total nm) as [tid Ht].
    rewrite (outcome_bind rt), Ht.
    destruct tid as [z|]; [destruct (Z.eqb_spec z 0)|].
    + destruct (IH tag_ids) as (ids & Ho & Hl & Hf); exists ids; auto.
    + destruct (IH (tag_ids ++ [z])%list) as (ids & Ho & Hl & Hf).
      exists (z :: ids); rewrite Ho, <- app_assoc; simpl; repeat split; auto; lia.
    + destruct (IH tag_ids) as (ids & Ho & Hl & Hf); exists ids; auto.
Qed.

End More.

Section Uploads.

Variable rt : runtime.
Variable w : world rt.

Local Abbreviation value := (json (float rt)).

(** Like [run_cases], keeping the equation of each case. *)
Ltac run_cases_eqn :=
  repeat (simpl;
          match goal with
          | |- context [match ?x with _ => _ end] =>
              lazymatch x with
              | context [match _ with _ => _ end] => fail
              | _ => destruct x eqn:?
              end
          end);
  simpl.

(** ** Media upload *)

Lemma upload_media_total (filepath : string) :
  exists r, outcome_of (upload_media w filepath) = Ok r.
Proof.
  unfold upload_media, resp_json, py_get, py_int, created, log, try_except, bind,
    perform, ret, raise.
  run_cases; eexists; reflexivity.
Qed.

(** X7: upload_media never raises and writes exactly one log line, the
    success line or a failure line; it opens the file first, and when the
    file cannot be opened no request is sent at all; otherwise the media
    request is its only request. *)
Theorem X7_upload_never_raises_and_logs_exactly_once (filepath : string) :
  (exists r, outcome_of (upload_media w filepath) = Ok r)
  /\ length (filter is_log (events (upload_media w filepath))) = 1
  /\ (exists rest, events (upload_media w filepath) = FileOpen filepath :: rest)
  /\ (forall e, open_rb w filepath = Throws e ->
        upload_media w filepath
        = ([FileOpen filepath; Log ("WP 画像アップ例外: " ++ str_exn rt e)], Ok None))
  /\ (forall u, open_rb w filepath = Returns u ->
        filter is_network (events (upload_media w filepath))
        = [Http (media_request w filepath)]).
Proof.
  split; [apply upload_media_total|].
  unfold upload_media, resp_json, py_get, py_int, created, log, try_except, bind,
    perform, ret, raise, media_request.
  split; [run_cases; reflexivity|].
  split; [run_cases; eexists; reflexivity|].
  split.
  - intros e He; rewrite He; reflexivity.
  - intros u Hu; rewrite Hu; run_cases; reflexivity.
Qed.

(** X8: upload_media returns a media id only when the CMS answered the
    media request with 200 or 201 and a JSON object whose id entry converts
    to that integer; the success line with the id is then in the log. *)
Theorem X8_upload_returns_an_id_only_on_a_created_answer (filepath : string) (mid : Z) :
  outcome_of (upload_media w filepath) = Ok (Some mid) ->
  exists r d,
    http w (media_request w filepath) = Returns r
    /\ created rt r = true
    /\ json_body r = Returns (JDict d)
    /\ outcome_of (py_int rt (match dict_get "id" d with
                             | Some v => v
                             | None => JNull
                             end)) = Ok mid
    /\ logged ("WP 画像アップ成功: id=" ++ str_Z mid) (events (upload_media w filepath)) = true.
Proof.
  unfold upload_media, resp_json, py_get, log, try_except, bind, perform, ret, raise,
    media_request.
  destruct (open_rb w filepath); [|discriminate].
  cbn -[dict_get py_int created].
  destruct (http w _) as [r|e]; [|discriminate].
  cbn -[dict_get py_int created].
  destruct (created rt r) eqn:Hc; [|discriminate].
  cbn -[dict_get py_int created].
  destruct (json_body r) as [j|e] eqn:Hj; [|discriminate].
  destruct j as [| | | | | |d]; try discriminate.
  cbn -[dict_get py_int created].
  destruct (py_int rt _) as [t [z|e]] eqn:Hz.
  - assert (Ht : t = []).
    { revert Hz; unfold py_int, ret, raise; run_cases; congruence. }
    subst t; cbn -[dict_get py_int created]; intros H; inversion H; subst.
    exists r, d; repeat split; auto.
    + rewrite Hz; reflexivity.
    + unfold logged; simpl; rewrite String.eqb_refl; reflexivity.
  - assert (Ht : t = []).
    { revert Hz; unfold py_int, ret, raise; run_cases; congruence. }
    subst t; cbn -[dict_get py_int created]; discriminate.
Qed.

(** ** Post creation *)

Lemma post_to_wp_unfit_category
    (title slug content_md : string) (featured_media : option Z) (tag_ids : list Z) :
  category_ok w = false ->
  post_to_wp w title slug content_md featured_media tag_ids = ([], Raise (ValueError "int")).
Proof.
  unfold category_ok, post_to_wp; intros H.
  destruct (str_isdigit rt (WP_CATEGORY_ID w)); [|discriminate].
  destruct (int_of_str rt (WP_CATEGORY_ID w)); [discriminate|reflexivity].
Qed.

Lemma post_to_wp_total
    (title slug content_md : string) (featured_media : option Z) (tag_ids : list Z) :
  category_ok w = true ->
  exists url, outcome_of (post_to_wp w title slug content_md featured_media tag_ids) = Ok url.
Proof.
  unfold category_ok, post_to_wp, requests_post_json, resp_json, py_get, created, log,
    try_except, bind, perform, ret, raise.
  intros H; revert H; run_cases; intros H; try discriminate; eexists; reflexivity.
Qed.

(** X9: post_to_wp returns a truthy value (the URL of the post) only when
    the CMS answered its one POST with 200 or 201.  When the request is
    sent, a transport error, any other status, an undecodable answer and
    an answer that is not a JSON object all give None, and a created
    answer whose link is truthy gives that link. *)
Theorem X9_post_reports_success_only_on_a_created_answer
    (title slug content_md : string) (featured_media : option Z) (tag_ids : list Z) :
  (forall url,
     outcome_of (post_to_wp w title slug content_md featured_media tag_ids) = Ok url ->
     truthy rt url = true ->
     exists body r,
       In (Http (POST_json (WP_POSTS_URL w) (wp_auth w) body 60))
          (events (post_to_wp w title slug content_md featured_media tag_ids))
       /\ http w (POST_json (WP_POSTS_URL w) (wp_auth w) body 60) = Returns r
       /\ created rt r = true)
  /\ (category_ok w = true ->
      exists body,
        In (Http (POST_json (WP_POSTS_URL w) (wp_auth w) body 60))
           (events (post_to_wp w title slug content_md featured_media tag_ids))
        /\ (forall e,
              http w (POST_json (WP_POSTS_URL w) (wp_auth w) body 60) = Throws e ->
              outcome_of (post_to_wp w title slug content_md featured_media tag_ids)
              = Ok JNull)
        /\ (forall r,
              http w (POST_json (WP_POSTS_URL w) (wp_auth w) body 60) = Returns r ->
              (created rt r = false ->
               outcome_of (post_to_wp w title slug content_md featured_media tag_ids)
               = Ok JNull)
              /\ (forall e,
                    created rt r = true -> json_body r = Throws e ->
                    outcome_of (post_to_wp w title slug content_md featured_media tag_ids)
                    = Ok JNull)
              /\ (forall j,
                    created rt r = true -> json_body r = Returns j ->
                    (forall d, j <> JDict d) ->
                    outcome_of (post_to_wp w title slug content_md featured_media tag_ids)
                    = Ok JNull)
              /\ (forall d link,
                    created rt r = true -> json_body r = Returns (JDict d) ->
                    dict_get "link" d = Some link -> truthy rt link = true ->
                    outcome_of (post_to_wp w title slug content_md featured_media tag_ids)
                    = Ok link))).
Proof.
  split.
  - intros url.
    unfold post_to_wp, requests_post_json, resp_json, py_get, log, try_except, bind,
      perform, ret, raise.
    destruct (str_isdigit rt (WP_CATEGORY_ID w));
      [destruct (int_of_str rt (WP_CATEGORY_ID w)); [|discriminate]|];
      cbn -[dict_get created truthy];
      (destruct (http w _) as [r|e] eqn:Hr;
       [|cbn -[dict_get created truthy]; intros H Ht; inversion H; subst; discriminate]);
      cbn -[dict_get created truthy];
      (destruct (created rt r) eqn:Hc;
       [|cbn -[dict_get created truthy]; intros H Ht; inversion H; subst; discriminate]);
      intros _ _; eexists; exists r; (split; [|split; [exact Hr|exact Hc]]);
      run_cases; auto.
  - unfold category_ok, post_to_wp, requests_post_json, resp_json, py_get, log,
      try_except, bind, perform, ret, raise.
    intros Hcat.
    destruct (str_isdigit rt (WP_CATEGORY_ID w));
      [destruct (int_of_str rt (WP_CATEGORY_ID w)); [|discriminate]|];
      (destruct featured_media as [m|]; [destruct (Z.eqb m 0)|]);
      cbn -[dict_get created truthy];
      (eexists; split;
       [run_cases; auto|];
       split;
       [intros e He; rewrite He; reflexivity|];
       intros r Hr; rewrite Hr; cbn -[dict_get created truthy];
       split; [intros Hc; rewrite Hc; reflexivity|];
       split; [intros e Hc Hj; rewrite Hc, Hj; reflexivity|];
       split;
       [intros j Hc Hj Hd; rewrite Hc, Hj; cbn -[dict_get created truthy];
        destruct j; try reflexivity; exfalso; eapply Hd; reflexivity
       |intros d link Hc Hj Hl Ht; rewrite Hc, Hj; cbn -[dict_get created truthy];
        rewrite Hl, Ht; reflexivity]).
Qed.


End Uploads.

Section Images.

Variable rt : runtime.
Variable w : world rt.

Local Abbreviation value := (json (float rt)).

(** ** Feature image *)

(** The fallback of the image step, as a whole. *)
Lemma fallback_run :
  bind (market_dashboard w)
       (fun dash =>
          bind (m7_prices w)
               (fun m7 =>
                  bind (perform (SaveFig (feature_path w) (dashboard_figure w dash m7))
                                (savefig w (feature_path w) (dashboard_figure w dash m7)))
                       (fun _ => ret (Some (feature_path w)))))
  = (fallback_events w, render_outcome w).
Proof.
  rewrite (run_bind rt), (market_dashboard_outcome rt w).
  rewrite (run_bind rt), (m7_prices_outcome rt w).
  unfold fallback_events, render_outcome; fold (fallback_figure w).
  unfold perform; simpl.
  destruct (savefig w (feature_path w) (fallback_figure w)); reflexivity.
Qed.

Lemma generate_feature_image_split :
  exists pre,
    forallb branch_only pre = true
    /\ length (filter is_log pre) <= 1
    /\ (client w = false -> pre = [])
    /\ (forall img,
          client w = true ->
          images_generate w image_prompt = Returns img ->
          img_data img = None \/ img_data img = Some [] ->
          pre = [OpenAIImage "gpt-image-1" image_prompt "1024x1024"])
    /\ (image_saved w = true ->
        exists png,
          generated_png w = Some png
          /\ pre = [OpenAIImage "gpt-image-1" image_prompt "1024x1024";
                    FileWrite (feature_path w) png]
          /\ generate_feature_image w = (pre, Ok (Some (feature_path w))))
    /\ (image_saved w = false ->
        generate_feature_image w = ((pre ++ fallback_events w)%list, render_outcome w)).
Proof.
  unfold generate_feature_image.
  set (first := if client w then _ else ret None).
  assert (Hfirst : exists pre,
             first = (pre, Ok (if image_saved w then Some (feature_path w) else None))
             /\ forallb branch_only pre = true
             /\ length (filter is_log pre) <= 1
             /\ (client w = false -> pre = [])
             /\ (forall img,
                   client w = true ->
                   images_generate w image_prompt = Returns img ->
                   img_data img = None \/ img_data img = Some [] ->
                   pre = [OpenAIImage "gpt-image-1" image_prompt "1024x1024"])
             /\ (image_saved w = true ->
                 exists png,
                   generated_png w = Some png
                   /\ pre = [OpenAIImage "gpt-image-1" image_prompt "1024x1024";
                             FileWrite (feature_path w) png])).
  { subst first; unfold image_saved, generated_png.
    destruct (client w); [|exists []; repeat split; auto; discriminate].
    unfold try_except, bind, perform, ret, raise, log; simpl.
    destruct (images_generate w image_prompt) as [img|e]; simpl;
      [|eexists; repeat split; auto; discriminate].
    destruct (img_data img) as [[|item items]|] eqn:Hdata; simpl;
      try (eexists; repeat split; auto; try discriminate;
           intros img0 _ Hi Hd; inversion Hi; subst; reflexivity).
    destruct (b64_json item) as [[s|]|]; simpl;
      try (eexists; repeat split; auto; try discriminate;
           intros img0 _ Hi Hd; inversion Hi; subst; destruct Hd; congruence).
    destruct (b64decode rt s) as [png|]; simpl;
      [|eexists; repeat split; auto; try discriminate;
        intros img0 _ Hi Hd; inversion Hi; subst; destruct Hd; congruence].
    destruct (write_bytes w (feature_path w) png); simpl;
      eexists; repeat split; auto; try discriminate;
      try (intros img0 _ Hi Hd; inversion Hi; subst; destruct Hd; congruence).
    intros _; exists png; auto. }
  destruct Hfirst as (pre & Hf & Hb & Hl & Hc & Hm & Hs).
  exists pre; repeat split; auto.
  - intros Hsaved; destruct (Hs Hsaved) as (png & Hg & Hp).
    exists png; repeat split; auto.
    rewrite Hf, Hsaved, bind_pair_ok; simpl; rewrite app_nil_r; reflexivity.
  - intros Hsaved; rewrite Hf, Hsaved, bind_pair_ok.
    cbv beta iota zeta; rewrite fallback_run; reflexivity.
Qed.

(** X11: when the generative service delivers image bytes and they are
    written to disk, the image step is the one generation request and the
    one file write: no price is fetched, nothing is rendered, nothing is
    logged, and the path of the written file is returned. *)
Theorem X11_generated_image_skips_the_fallback :
  image_saved w = true ->
  exists png,
    generated_png w = Some png
    /\ generate_feature_image w
       = ([OpenAIImage "gpt-image-1" image_prompt "1024x1024";
           FileWrite (feature_path w) png],
          Ok (Some (feature_path w))).
Proof.
  intros H; destruct generate_feature_image_split as (pre & _ & _ & _ & _ & Hs & _).
  destruct (Hs H) as (png & Hg & -> & Hrun); exists png; auto.
Qed.

(** X12: whenever the generative branch leaves no image on disk (no
    client, an exception of the service, an answer without data or without
    the payload attribute, a payload that does not decode, a failed write),
    the image step goes on with the whole fallback: the two snapshots and
    the render, whose outcome is the outcome of the step.  The branch adds
    at most one log line, and none when the answer merely has no data. *)
Theorem X12_any_failure_of_the_generative_branch_reaches_the_fallback :
  image_saved w = false ->
  exists pre,
    generate_feature_image w = ((pre ++ fallback_events w)%list, render_outcome w)
    /\ forallb branch_only pre = true
    /\ length (filter is_log pre) <= 1
    /\ (client w = false -> pre = [])
    /\ (forall img,
          client w = true ->
          images_generate w image_prompt = Returns img ->
          img_data img = None \/ img_data img = Some [] ->
          pre = [OpenAIImage "gpt-image-1" image_prompt "1024x1024"]).
Proof.
  intros H; destruct generate_feature_image_split as (pre & Hb & Hl & Hc & Hm & _ & Hf).
  exists pre; repeat split; auto.
Qed.

End Images.

Section Texts.

Variable rt : runtime.
Variable w : world rt.

Local Abbreviation value := (json (float rt)).

(** ** Context text *)

Lemma fetch_prices_no_http (items : list (string * string)) :
  forall out,
    forallb (fun ev => negb (is_http ev)) (events (fetch_prices w items out)) = true.
Proof.
  induction items as [|[name tkr] rest IH]; intros out; simpl; [reflexivity|].
  apply all_bind; [|intros; apply IH].
  rewrite price_of_events; unfold price_events.
  destruct (yf_history w tkr); reflexivity.
Qed.

Lemma news_item_lines_well_formed (ns : list value) :
  forallb news_item_ok ns = true ->
  forall parts,
    news_item_lines rt ns parts = ([], Ok (parts ++ map item_line ns)%list).
Proof.
  induction ns as [|n rest IH]; intros Hok parts.
  - simpl; rewrite app_nil_r; reflexivity.
  - simpl in Hok; apply andb_true_iff in Hok as [Hn Hrest].
    destruct n as [| | | | | |d]; try discriminate.
    simpl in Hn; cbn -[dict_get py_strip].
    destruct (dict_get "headline" d) as [[| | | |s| |]|]; try discriminate;
      cbn -[dict_get py_strip]; try change (py_strip "") with EmptyString;
      rewrite (IH Hrest); cbn -[dict_get py_strip];
      rewrite <- app_assoc; reflexivity.
Qed.

Lemma news_item_lines_malformed (ns : list value) :
  forallb news_item_ok ns = false ->
  forall parts,
  exists attr, news_item_lines rt ns parts = ([], Raise (AttributeError attr)).
Proof.
  induction ns as [|n rest IH]; intros Hbad parts; [discriminate|].
  simpl in Hbad.
  destruct (news_item_ok n) eqn:Hn.
  - simpl in Hbad.
    destruct n as [| | | | | |d]; try discriminate.
    simpl in Hn; cbn -[dict_get py_strip].
    destruct (dict_get "headline" d) as [[| | | |s| |]|]; try discriminate;
      cbn -[dict_get py_strip];
      match goal with
      | |- context [news_item_lines rt rest ?X] =>
          destruct (IH Hbad X) as [attr Ha]; exists attr; rewrite Ha; reflexivity
      end.
  - destruct n as [| | | | | |d]; try (eexists; reflexivity).
    simpl in Hn; cbn -[dict_get py_strip].
    destruct (dict_get "headline" d) as [[| | | |s| |]|]; try discriminate;
      eexists; reflexivity.
Qed.

Lemma news_block_of_digest (t : string) :
  news_block w t
  = if is_nil (news_digest w t) then []
    else ("- " ++ t ++ ":") :: map item_line (news_digest w t).
Proof. unfold news_block; destruct (news_digest w t); reflexivity. Qed.

Lemma news_lines_outcome (tickers : list string) :
  forall parts,
    if news_well_formed w tickers then
      outcome_of (news_lines w tickers parts)
      = Ok (parts ++ flat_map (news_block w) tickers)%list
    else
      exists attr, outcome_of (news_lines w tickers parts) = Raise (AttributeError attr).
Proof.
  induction tickers as [|t rest IH]; intros parts.
  - simpl; rewrite app_nil_r; reflexivity.
  - change (news_well_formed w (t :: rest))
      with (forallb news_item_ok (news_digest w t) && news_well_formed w rest).
    change (flat_map (news_block w) (t :: rest))
      with (news_block w t ++ flat_map (news_block w) rest)%list.
    cbn [news_lines].
    rewrite (outcome_bind rt), (finnhub_company_news_outcome rt w), (outcome_bind rt).
    rewrite news_block_of_digest.
    destruct (is_nil (news_digest w t)) eqn:Hnil.
    + assert (Hd : news_digest w t = []) by (destruct (news_digest w t); [reflexivity|discriminate]).
      rewrite Hd; cbn [forallb andb outcome_of snd ret app].
      exact (IH parts).
    + destruct (forallb news_item_ok (news_digest w t)) eqn:Hok.
      * rewrite (news_item_lines_well_formed _ Hok); cbn [outcome_of snd andb].
        specialize (IH ((parts ++ [("- " ++ t ++ ":")%string]) ++ map item_line (news_digest w t))%list).
        destruct (news_well_formed w rest).
        -- rewrite IH; rewrite <- !app_assoc; reflexivity.
        -- exact IH.
      * destruct (news_item_lines_malformed _ Hok (parts ++ [("- " ++ t ++ ":")%string])%list)
          as [attr Ha].
        rewrite Ha; cbn [outcome_of snd andb]; exists attr; reflexivity.
Qed.

Lemma finnhub_without_key (ticker : string) :
  FINNHUB_API_KEY w = EmptyString -> finnhub_company_news w ticker = ([], Ok []).
Proof. intros H; unfold finnhub_company_news; rewrite H; reflexivity. Qed.

Lemma news_lines_without_key (tickers : list string) :
  FINNHUB_API_KEY w = EmptyString ->
  forall parts, news_lines w tickers parts = ([], Ok parts).
Proof.
  intros Hk; induction tickers as [|t rest IH]; intros parts; [reflexivity|].
  cbn [news_lines]; rewrite (finnhub_without_key t Hk).
  unfold bind, ret; cbn [is_nil]; rewrite IH; reflexivity.
Qed.


(** X14: build_context_text returns exactly when every item of every
    digest is a JSON object whose headline, if present, is a string.  Its
    text is then the price lines followed, for each ticker with a non-empty
    digest, by a line naming the ticker and one line per item; a ticker
    with an empty digest adds nothing.  Otherwise it raises AttributeError. *)
Theorem X14_context_is_assembled_exactly_on_well_formed_news :
  (news_well_formed w news_tickers = true ->
     outcome_of (build_context_text w)
     = Ok (join nl (price_lines w ++ flat_map (news_block w) news_tickers)%list))
  /\ (news_well_formed w news_tickers = false ->
        exists attr, outcome_of (build_context_text w) = Raise (AttributeError attr)).
Proof.
  unfold build_context_text.
  rewrite (outcome_bind rt), (market_dashboard_outcome rt w).
  rewrite (outcome_bind rt), (m7_prices_outcome rt w).
  rewrite (outcome_bind rt).
  pose proof (news_lines_outcome news_tickers (price_lines w)) as H.
  unfold price_lines in H at 1 3.
  split; intros Hw; rewrite Hw in H.
  - rewrite H; reflexivity.
  - destruct H as [attr H]; exists attr; rewrite H; reflexivity.
Qed.

(** ** Generated article *)

(** X22: long_article_by_openai never raises.  Without a client it does
    nothing; with a client it sends exactly one chat request and writes at
    most one log line; the text it returns, when it returns one, is the
    stripped content of the first choice of the answer. *)
Theorem X22_generated_text_is_the_stripped_first_choice (ctx : string) :
  (exists t, outcome_of (long_article_by_openai w ctx) = Ok t)
  /\ (client w = false -> long_article_by_openai w ctx = ([], Ok None))
  /\ (client w = true ->
      exists notes,
        events (long_article_by_openai w ctx)
        = OpenAIChat "gpt-4o-mini" "0.7" 1800 sys_prompt (user_prompt ctx) :: notes
        /\ forallb is_log notes = true
        /\ length notes <= 1)
  /\ (forall text,
        outcome_of (long_article_by_openai w ctx) = Ok (Some text) ->
        exists content rest,
          chat_completions w sys_prompt (user_prompt ctx) = Returns (Some content :: rest)
          /\ text = py_strip content).
Proof.
  unfold long_article_by_openai.
  destruct (client w); cbn [negb].
  - destruct (chat_completions w sys_prompt (user_prompt ctx)) as [[|[content|] rest]|e];
      unfold try_except, bind, perform, ret, raise, log;
      cbn [events outcome_of fst snd app];
      (split; [eexists; reflexivity|]);
      (split; [discriminate|]);
      (split; [intros _; eexists; repeat split; auto|]);
      intros text H; inversion H; subst; eauto.
  - split; [eexists; reflexivity|].
    split; [reflexivity|].
    split; [discriminate|].
    intros text H; discriminate.
Qed.

End Texts.

Section Runs.

Variable rt : runtime.
Variable w : world rt.

Local Abbreviation value := (json (float rt)).

(** ** Every event of a run *)

Ltac expected_leaf :=
  cbn [expected_event expected_request wp_auth fst snd];
  rewrite ?String.eqb_refl, ?orb_true_r;
  try reflexivity; try assumption.

Ltac expected_events :=
  repeat first
    [ apply all_ret
    | apply all_raise
    | apply all_log; reflexivity
    | apply all_perform; expected_leaf
    | apply all_bind; [|intros]
    | apply all_try; [|intros]
    | match goal with
      | |- context [match ?x with _ => _ end] => destruct x
      | |- context [if ?x then _ else _] => destruct x
      end ].

Lemma expected_price_of (ticker : string) :
  forallb (expected_event w) (events (price_of w ticker)) = true.
Proof. unfold price_of; expected_events. Qed.

Lemma expected_fetch_prices (items : list (string * string)) :
  forall out, forallb (expected_event w) (events (fetch_prices w items out)) = true.
Proof.
  induction items as [|[name tkr] rest IH]; intros out; simpl; [reflexivity|].
  apply all_bind; [apply expected_price_of|intros; apply IH].
Qed.

Lemma expected_http_json (url : string) (ps : list (string * string)) :
  forallb (expected_event w) (events (http_json w url ps)) = true.
Proof. unfold http_json, requests_get, resp_json; expected_events. Qed.

Lemma expected_finnhub (ticker : string) :
  forallb (expected_event w) (events (finnhub_company_news w ticker)) = true.
Proof.
  unfold finnhub_company_news.
  destruct (negb (truthy_str (FINNHUB_API_KEY w))); [reflexivity|].
  apply all_bind; [apply expected_http_json|intros js].
  destruct (negb (truthy rt js) || _); [reflexivity|].
  destruct js; reflexivity.
Qed.

Lemma expected_news_item_lines (ns : list value) :
  forall parts, forallb (expected_event w) (events (news_item_lines rt ns parts)) = true.
Proof.
  induction ns as [|n rest IH]; intros parts; simpl; [reflexivity|].
  unfold py_get, str_strip.
  repeat (apply all_bind; [expected_events|intros]).
  apply IH.
Qed.

Lemma expected_news_lines (tickers : list string) :
  forall parts, forallb (expected_event w) (events (news_lines w tickers parts)) = true.
Proof.
  induction tickers as [|t rest IH]; intros parts; simpl; [reflexivity|].
  apply all_bind; [apply expected_finnhub|intros ns].
  apply all_bind; [|intros; apply IH].
  destruct (is_nil ns); [reflexivity|apply expected_news_item_lines].
Qed.

Lemma expected_build_context_text :
  forallb (expected_event w) (events (build_context_text w)) = true.
Proof.
  unfold build_context_text, market_dashboard, m7_prices.
  apply all_bind; [apply expected_fetch_prices|intros dash].
  apply all_bind; [apply expected_fetch_prices|intros m7].
  apply all_bind; [apply expected_news_lines|intros; reflexivity].
Qed.

Lemma expected_long_article (ctx : string) :
  forallb (expected_event w) (events (long_article_by_openai w ctx)) = true.
Proof.
  unfold long_article_by_openai.
  destruct (client w) eqn:Hc; [|reflexivity].
  cbn [negb]; expected_events.
Qed.

Lemma expected_build_article :
  forallb (expected_event w) (events (build_article w)) = true.
Proof.
  unfold build_article.
  apply all_bind; [apply expected_build_context_text|intros ctx].
  apply all_bind; [apply expected_long_article|intros; reflexivity].
Qed.

Lemma expected_generate_feature_image :
  forallb (expected_event w) (events (generate_feature_image w)) = true.
Proof.
  unfold generate_feature_image, market_dashboard, m7_prices.
  apply all_bind.
  - destruct (client w) eqn:Hc; [|reflexivity]; expected_events.
  - intros [out|]; [reflexivity|].
    apply all_bind; [apply expected_fetch_prices|intros dash].
    apply all_bind; [apply expected_fetch_prices|intros m7].
    cbv zeta; expected_events.
Qed.

Lemma expected_wp_tag_id_by_name (name : string) :
  forallb (expected_event w) (events (wp_tag_id_by_name w name)) = true.
Proof.
  unfold wp_tag_id_by_name, requests_get, requests_post_json, resp_json, subscript, py_int.
  expected_events.
Qed.

Lemma expected_resolve_tags (names : list string) :
  forall tag_ids, forallb (expected_event w) (events (resolve_tags w names tag_ids)) = true.
Proof.
  induction names as [|nm rest IH]; intros tag_ids; simpl; [reflexivity|].
  apply all_bind; [apply expected_wp_tag_id_by_name|intros; apply IH].
Qed.

Lemma expected_upload_media (filepath : string) :
  forallb (expected_event w) (events (upload_media w filepath)) = true.
Proof.
  unfold upload_media, resp_json, py_get, py_int; cbv zeta; expected_events.
Qed.

Lemma expected_post_exists (s : string) :
  forallb (expected_event w) (events (post_exists w s)) = true.
Proof. unfold post_exists, requests_get, resp_json; expected_events. Qed.

Lemma expected_post_to_wp
    (title slug content_md : string) (featured_media : option Z) (tag_ids : list Z) :
  forallb (expected_event w)
          (events (post_to_wp w title slug content_md featured_media tag_ids)) = true.
Proof.
  unfold post_to_wp, requests_post_json, resp_json, py_get; cbv zeta.
  apply all_bind; [expected_events|intros cats].
  apply all_try; [|intros; expected_events].
  apply all_bind; [apply all_perform; expected_leaf|intros r].
  expected_events.
Qed.

Lemma expected_publish : forallb (expected_event w) (events (publish w)) = true.
Proof.
  unfold publish.
  apply all_bind; [reflexivity|intros _].
  apply all_bind; [apply expected_build_article|intros content_md].
  apply all_bind;
    [destruct (truthy_str (WP_TAGS_RAW w)); [apply expected_resolve_tags|reflexivity]
    |intros tag_ids].
  apply all_bind; [apply expected_generate_feature_image|intros img_path].
  apply all_bind;
    [destruct img_path as [p|];
     [destruct (truthy_str p); [apply expected_upload_media|reflexivity]|reflexivity]
    |intros fm_id].
  apply all_bind; [apply expected_post_to_wp|intros url].
  apply all_bind; [destruct (truthy rt url); reflexivity|intros; reflexivity].
Qed.

(** Every event of a run is one a run can leave. *)
Lemma expected_main : forallb (expected_event w) (events (main w)) = true.
Proof.
  unfold main.
  apply all_bind; [reflexivity|intros _].
  destruct (negb (wp_configured w)); [reflexivity|].
  apply all_bind; [apply expected_post_exists|intros dup].
  destruct dup; [reflexivity|apply expected_publish].
Qed.

Lemma forallb_weaken {A : Type} (P Q : A -> bool) (l : list A) :
  (forall a, P a = true -> Q a = true) -> forallb P l = true -> forallb Q l = true.
Proof.
  intros H; rewrite !forallb_forall; auto.
Qed.

Lemma startswith_app (p s : string) : startswith p (p ++ s) = true.
Proof.
  induction p as [|a p IH]; simpl; [reflexivity|].
  rewrite Ascii.eqb_refl, IH; reflexivity.
Qed.

(** X16: with no client (no OPENAI_API_KEY, no SDK, or a constructor
    that raised) a whole run sends no request to the generative service and
    writes no image file of its own: the article is the template and the
    image is the rendered dashboard. *)
Theorem X16_no_client_no_generative_request :
  client w = false ->
  forallb (fun ev => negb (is_openai ev)) (events (main w)) = true
  /\ forallb (fun ev => match ev with FileWrite _ _ => false | _ => true end)
             (events (main w)) = true.
Proof.
  intros Hc; split; apply (forallb_weaken (expected_event w)); try apply expected_main;
    intros [] H; try reflexivity; simpl in H; congruence.
Qed.

(** X17: in every run, a request that carries the WordPress credentials
    is addressed to a URL that starts with the configured base URL, and
    every write request carries the configured credentials; the requests to
    the news provider and the duplicate check carry none. *)
Theorem X17_credentials_go_to_the_cms_only :
  forallb (auth_stays_home w) (events (main w)) = true
  /\ forallb (write_is_authenticated w) (events (main w)) = true.
Proof.
  split; apply (forallb_weaken (expected_event w)); try apply expected_main;
    intros [msg|r| | | | | |] H; try reflexivity.
  - destruct r as [url ps [a|] t|url [a|] body t|url [a|] hs fname path mime t];
      simpl in H |- *; try reflexivity; try discriminate;
      repeat (apply andb_true_iff in H as [H ?]);
      try (apply orb_true_iff in H as [H|H]);
      apply String.eqb_eq in H; subst url;
      unfold WP_TAGS_URL, WP_POSTS_URL, WP_MEDIA_URL; apply startswith_app.
  - destruct r as [url ps [a|] t|url [a|] body t|url [a|] hs fname path mime t];
      simpl in H |- *; try reflexivity; try discriminate;
      repeat (apply andb_true_iff in H as [H ?]);
      apply andb_true_iff; auto.
Qed.

(** ** The order and the end of a run *)

(** X15: no request of any kind precedes the duplicate check: the first
    network event of a configured run is the duplicate query, and a run
    that is not configured has no network event. *)
Theorem X15_duplicate_check_is_the_first_request :
  hd_error (filter is_network (events (main w)))
  = if wp_configured w then Some (Http (duplicate_request w)) else None.
Proof.
  destruct (wp_configured w) eqn:Hc.
  - rewrite (main_configured rt w Hc), (events_bind rt), (events_bind rt).
    rewrite (post_exists_run rt w); unfold duplicate_request.
    destruct (http w _) as [r|e]; [|reflexivity].
    destruct (Z.eqb (status_code r) 200); [|reflexivity].
    destruct (json_body r) as [[| | | | | |]|]; reflexivity.
  - unfold main; rewrite Hc; reflexivity.
Qed.

Lemma resolve_tags_total (names : list string) :
  forall tag_ids, exists ids, outcome_of (resolve_tags w names tag_ids) = Ok ids.
Proof.
  induction names as [|nm rest IH]; intros tag_ids; simpl; [eexists; reflexivity|].
  destruct (wp_tag_id_by_name_total rt w nm) as [tid Ht].
  rewrite (outcome_bind rt), Ht; apply IH.
Qed.

Lemma publish_run :
  outcome_of (publish w) = publish_outcome w
  /\ (outcome_of (publish w) = Ok tt ->
      exists pre, events (publish w) = (pre ++ [Log "=== 自動投稿タスク終了 ==="])%list).
Proof.
  unfold publish, publish_outcome.
  rewrite (run_bind rt (log rt _)); cbn [outcome_of events log fst snd].
  rewrite (run_bind rt (build_article w)).
  destruct (outcome_of (build_article w)) as [content_md|e];
    [|split; [reflexivity|discriminate]].
  match goal with
  | |- context [bind ?m _] =>
      assert (Htags : exists ids, outcome_of m = Ok ids)
        by (destruct (truthy_str (WP_TAGS_RAW w));
            [apply resolve_tags_total|eexists; reflexivity]);
      destruct Htags as [tag_ids Htags];
      rewrite (run_bind rt m), Htags
  end.
  rewrite (run_bind rt (generate_feature_image w)).
  destruct (outcome_of (generate_feature_image w)) as [img_path|e];
    [|split; [reflexivity|discriminate]].
  match goal with
  | |- context [bind ?m _] =>
      assert (Hup : exists fm, outcome_of m = Ok fm)
        by (destruct img_path as [p|];
            [destruct (truthy_str p); [apply upload_media_total|eexists; reflexivity]
            |eexists; reflexivity]);
      destruct Hup as [fm_id Hup];
      rewrite (run_bind rt m), Hup
  end.
  rewrite (run_bind rt (post_to_wp w _ _ _ _ _)).
  destruct (category_ok w) eqn:Hcat.
  - destruct (post_to_wp_total rt w (title w) (slug w) content_md fm_id tag_ids Hcat)
      as [url Hurl].
    rewrite Hurl.
    match goal with
    | |- context [bind ?m _] =>
        assert (Hdone : outcome_of m = Ok tt) by (destruct (truthy rt url); reflexivity);
        rewrite (run_bind rt m), Hdone
    end.
    cbn [outcome_of events log fst snd].
    split; [reflexivity|intros _].
    eexists; rewrite !app_assoc; reflexivity.
  - rewrite (post_to_wp_unfit_category rt w _ _ _ _ _ Hcat).
    cbn [outcome_of events fst snd]; split; [reflexivity|discriminate].
Qed.

(** X23: once the duplicate check has passed, only three things can end
    the run with an exception: the article (a malformed news item), the
    image step (a failing fallback render) and a category setting that
    int() rejects.  Failures of tag lookup, of the media upload and of the
    post creation itself never do; and every run that returns normally
    ends with the end line as its last event. *)
Theorem X23_only_article_image_or_category_can_end_the_run :
  outcome_of (publish w) = publish_outcome w
  /\ (outcome_of (publish w) = Ok tt ->
      exists pre, events (publish w) = (pre ++ [Log "=== 自動投稿タスク終了 ==="])%list).
Proof. exact publish_run. Qed.

End Runs.

Section Refetch.

Variable rt : runtime.
Variable w : world rt.

Local Abbreviation value := (json (float rt)).

Lemma filter_none {A : Type} (P : A -> bool) (l : list A) :
  forallb (fun a => negb (P a)) l = true -> filter P l = [].
Proof.
  induction l as [|a l IH]; simpl; [reflexivity|].
  intros H; apply andb_true_iff in H as [Ha Hl].
  destruct (P a); [discriminate|apply IH, Hl].
Qed.

Lemma fetch_prices_history (items : list (string * string)) :
  forall out,
    filter is_history (events (fetch_prices w items out))
    = map (fun p => YfHistory (snd p) "1d") items.
Proof.
  induction items as [|[name tkr] rest IH]; intros out; [reflexivity|].
  simpl fetch_prices; rewrite (events_bind rt), price_of_events, (price_of_outcome rt w).
  rewrite filter_app, IH; unfold price_events; simpl.
  destruct (yf_history w tkr); reflexivity.
Qed.

Lemma news_item_lines_no_history (ns : list value) :
  forall parts,
    forallb (fun ev => negb (is_history ev)) (events (news_item_lines rt ns parts)) = true.
Proof.
  induction ns as [|n rest IH]; intros parts; simpl; [reflexivity|].
  unfold py_get, str_strip.
  repeat (apply all_bind; [all_events|intros]).
  apply IH.
Qed.

Lemma news_lines_no_history (tickers : list string) :
  forall parts,
    forallb (fun ev => negb (is_history ev)) (events (news_lines w tickers parts)) = true.
Proof.
  induction tickers as [|t rest IH]; intros parts; simpl; [reflexivity|].
  apply all_bind.
  - unfold finnhub_company_news, http_json, requests_get, resp_json; all_events.
  - intros ns; apply all_bind; [|intros; apply IH].
    destruct (is_nil ns); [reflexivity|apply news_item_lines_no_history].
Qed.

(** X24: the article and the fallback image each ask the provider for all
    twelve prices themselves, in the same order: the fallback does not reuse
    the snapshot of the article, so a run without a generated image sends
    every price request twice. *)
Theorem X24_fallback_image_fetches_the_prices_again :
  filter is_history (events (build_context_text w)) = all_price_requests
  /\ (image_saved w = false ->
      filter is_history (events (generate_feature_image w)) = all_price_requests)
  /\ (image_saved w = true ->
      filter is_history (events (generate_feature_image w)) = []).
Proof.
  split; [|split].
  - unfold build_context_text.
    rewrite (events_bind rt), (market_dashboard_outcome rt w).
    rewrite (events_bind rt), (m7_prices_outcome rt w).
    rewrite (events_bind rt), !filter_app.
    unfold market_dashboard, m7_prices; rewrite !fetch_prices_history.
    rewrite (filter_none _ _ (news_lines_no_history _ _)).
    destruct (outcome_of (news_lines w news_tickers _)); simpl; rewrite ?app_nil_r;
      reflexivity.
  - intros H; destruct (generate_feature_image_split rt w) as (pre & Hb & _ & _ & _ & _ & Hf).
    rewrite (Hf H); unfold events; cbn [fst]; unfold fallback_events.
    rewrite !filter_app; unfold market_dashboard, m7_prices.
    rewrite !fetch_prices_history.
    assert (Hpre : filter is_history pre = []).
    { apply filter_none, (forallb_weaken branch_only); [|exact Hb].
      intros []; simpl; congruence. }
    rewrite Hpre; simpl; rewrite ?app_nil_r; reflexivity.
  - intros H; destruct (generate_feature_image_split rt w) as (pre & _ & _ & _ & _ & Hs & _).
    destruct (Hs H) as (png & _ & Hpre & Hrun); rewrite Hrun, Hpre; reflexivity.
Qed.

End Refetch.

(** ** URLs and slugs *)

Lemma string_append_assoc (a b c : string) : (a ++ b) ++ c = a ++ (b ++ c).
Proof. induction a as [|x a IH]; simpl; [reflexivity|rewrite IH; reflexivity]. Qed.

Lemma string_length_append (a b : string) :
  String.length (a ++ b) = String.length a + String.length b.
Proof. induction a as [|x a IH]; simpl; [reflexivity|rewrite IH; reflexivity]. Qed.

Lemma string_rev_append_app (s acc : string) :
  string_rev_append s acc = string_rev s ++ acc.
Proof.
  unfold string_rev; revert acc; induction s as [|a s IH]; intros acc; simpl; [reflexivity|].
  rewrite IH, (IH (String a EmptyString)).
  rewrite string_append_assoc; reflexivity.
Qed.

Lemma string_rev_cons (a : ascii) (s : string) :
  string_rev (String a s) = string_rev s ++ String a EmptyString.
Proof. unfold string_rev at 1; simpl; apply string_rev_append_app. Qed.

Lemma string_rev_snoc (s : string) (c : ascii) :
  string_rev (s ++ String c EmptyString) = String c (string_rev s).
Proof.
  induction s as [|a s IH]; [reflexivity|].
  simpl; rewrite !string_rev_cons, IH; reflexivity.
Qed.

Lemma endswith_char_snoc (s : string) (c : ascii) :
  endswith_char c (s ++ String c EmptyString) = true.
Proof. unfold endswith_char; rewrite string_rev_snoc; apply Ascii.eqb_refl. Qed.

Lemma endswith_char_cons (c a b : ascii) (s : string) :
  endswith_char c (String a (String b s)) = endswith_char c (String b s).
Proof.
  unfold endswith_char; rewrite (string_rev_cons a).
  rewrite (string_rev_cons b); destruct (string_rev s); reflexivity.
Qed.

Lemma append_snoc_neq (s : string) (c : ascii) : s ++ String c EmptyString <> s.
Proof.
  intros H; apply (f_equal String.length) in H.
  rewrite string_length_append in H; simpl in H; lia.
Qed.

(** X18: ensure_slash returns a string that ends with a slash, leaves a
    string unchanged exactly when it already ends with one, and is
    idempotent. *)
Theorem X18_ensure_slash_ends_with_one_slash_more_at_most (url : string) :
  endswith_char "/" (ensure_slash url) = true
  /\ (ensure_slash url = url <-> endswith_char "/" url = true)
  /\ ensure_slash (ensure_slash url) = ensure_slash url.
Proof.
  unfold ensure_slash.
  destruct (endswith_char "/" url) eqn:E.
  - rewrite E; repeat split; auto.
  - rewrite endswith_char_snoc; repeat split; auto.
    + intros H; exfalso; exact (append_snoc_neq _ _ H).
    + discriminate.
Qed.

Lemma rstrip_char_snoc (c : ascii) (s : string) :
  rstrip_char c (s ++ String c EmptyString) = rstrip_char c s.
Proof.
  induction s as [|a s IH]; simpl.
  - rewrite Ascii.eqb_refl; reflexivity.
  - rewrite IH; reflexivity.
Qed.

Lemma rstrip_char_not_ending (c : ascii) (s : string) :
  endswith_char c (rstrip_char c s) = false.
Proof.
  induction s as [|a s IH]; simpl; [reflexivity|].
  destruct (rstrip_char c s) as [|b r] eqn:E.
  - destruct (Ascii.eqb a c) eqn:Ea; [reflexivity|].
    unfold endswith_char; simpl; exact Ea.
  - rewrite endswith_char_cons; exact IH.
Qed.

Lemma rstrip_char_all (c : ascii) (s : string) :
  all_chars c s = true -> rstrip_char c s = EmptyString.
Proof.
  induction s as [|a s IH]; simpl; [reflexivity|].
  intros H; apply andb_true_iff in H as [Ha Hs].
  rewrite (IH Hs), Ha; reflexivity.
Qed.

(** X19: the base URL never ends with a slash, and one more trailing
    slash in WP_BASE_URL changes none of the three endpoint URLs. *)
Theorem X19_trailing_slash_of_the_base_url_is_irrelevant
    (rt : runtime) (w1 w2 : world rt) (u : string) :
  env w1 "WP_BASE_URL" = Some u ->
  env w2 "WP_BASE_URL" = Some (u ++ "/") ->
  env w1 "WP_API_ENDPOINT" = env w2 "WP_API_ENDPOINT" ->
  endswith_char "/" (WP_BASE_URL w1) = false
  /\ WP_BASE_URL w1 = WP_BASE_URL w2
  /\ WP_POSTS_URL w1 = WP_POSTS_URL w2
  /\ WP_MEDIA_URL w1 = WP_MEDIA_URL w2
  /\ WP_TAGS_URL w1 = WP_TAGS_URL w2.
Proof.
  intros H1 H2 He.
  assert (Hb : WP_BASE_URL w1 = WP_BASE_URL w2).
  { unfold WP_BASE_URL, getenv; rewrite H1, H2, rstrip_char_snoc; reflexivity. }
  split; [apply rstrip_char_not_ending|].
  split; [exact Hb|].
  unfold WP_POSTS_URL, WP_MEDIA_URL, WP_TAGS_URL, getenv; rewrite Hb, He; auto.
Qed.

Lemma main_not_configured (rt : runtime) (w : world rt) :
  wp_configured w = false ->
  main w =
    ([Log "=== 自動投稿タスク開始 ===";
      Log "WP 設定不足。WP_BASE_URL, WP_USERNAME, WP_APP_PASSWORD を確認してください。"],
     Ok tt).
Proof. intros H; unfold main; rewrite H; reflexivity. Qed.

(** X20: a base URL made of slashes only counts as missing: the run is
    the two log lines and sends nothing. *)
Theorem X20_base_url_of_slashes_is_missing_configuration
    (rt : runtime) (w : world rt) (s : string) :
  env w "WP_BASE_URL" = Some s ->
  all_chars "/" s = true ->
  main w =
    ([Log "=== 自動投稿タスク開始 ===";
      Log "WP 設定不足。WP_BASE_URL, WP_USERNAME, WP_APP_PASSWORD を確認してください。"],
     Ok tt).
Proof.
  intros He Hs; apply main_not_configured.
  unfold wp_configured, WP_BASE_URL, getenv; rewrite He, (rstrip_char_all _ _ Hs).
  reflexivity.
Qed.

Lemma below_of_forallb (f : nat -> bool) (bound n : nat) :
  forallb f (seq 0 bound) = true -> n < bound -> f n = true.
Proof.
  intros H Hn; rewrite forallb_forall in H; apply H, in_seq; lia.
Qed.

Lemma pad_ok_spec (width : nat) (pad : nat -> string) (n : nat) :
  pad_ok width pad n = true -> String.length (pad n) = width /\ unpad (pad n) = Some n.
Proof.
  unfold pad_ok; intros H; apply andb_true_iff in H as [Hl Hu].
  apply Nat.eqb_eq in Hl; split; [exact Hl|].
  destruct (unpad (pad n)); [apply Nat.eqb_eq in Hu; congruence|discriminate].
Qed.

Lemma pad2_ok (n : nat) : n < 100 -> String.length (pad2 n) = 2 /\ unpad (pad2 n) = Some n.
Proof.
  intros H; apply pad_ok_spec, (below_of_forallb (pad_ok 2 pad2) 100); [|exact H].
  vm_compute; reflexivity.
Qed.

Lemma to_uint_not_nil (n : nat) : Nat.to_uint n <> Decimal.Nil.
Proof.
  rewrite <- (DecimalNat.Unsigned.of_to n) at 1; rewrite DecimalNat.Unsigned.to_of.
  apply DecimalFacts.unorm_nonnil.
Qed.

Lemma unpad_str_nat (n : nat) : unpad (str_nat n) = Some n.
Proof.
  unfold unpad, str_nat.
  rewrite (NilZero.usu _ (to_uint_not_nil n)); simpl.
  now rewrite DecimalNat.Unsigned.of_to.
Qed.

Lemma str_nat_not_empty (n : nat) : str_nat n <> "".
Proof.
  intros H; pose proof (unpad_str_nat n) as U; rewrite H in U; discriminate.
Qed.

(** A leading zero does not change the number read. *)
Lemma unpad_zero (s : string) : s <> "" -> unpad (String "0" s) = unpad s.
Proof.
  intros Hs; unfold unpad, NilZero.uint_of_string.
  destruct s as [|a r]; [contradiction|].
  change (NilEmpty.uint_of_string (String "0" (String a r)))
    with (match NilEmpty.uint_of_string (String a r) with
          | Some d => Some (Decimal.D0 d) | None => None end).
  destruct (NilEmpty.uint_of_string (String a r)); reflexivity.
Qed.

(** The year reads back whatever its number of digits. *)
Lemma unpad_pad4 (n : nat) : unpad (pad4 n) = Some n.
Proof.
  pose proof (str_nat_not_empty n) as N.
  unfold pad4; repeat match goal with |- context [if ?c then _ else _] => destruct c end;
    cbn [append]; rewrite ?unpad_zero; auto using unpad_str_nat; discriminate.
Qed.

Lemma append_inj_length (a a' b b' : string) :
  String.length a = String.length a' -> a ++ b = a' ++ b' -> a = a' /\ b = b'.
Proof.
  revert a'; induction a as [|x a IH]; intros [|y a'] Hl H; simpl in *; try discriminate.
  - auto.
  - inversion H; subst; destruct (IH a') as [-> ->]; auto.
Qed.

Lemma append_cancel_l (p a b : string) : p ++ a = p ++ b -> a = b.
Proof. induction p as [|x p IH]; simpl; intros H; [exact H|inversion H; auto]. Qed.

Lemma fmt_slug_inj (d1 d2 : datetime) :
  valid_clock d1 -> valid_clock d2 -> fmt_slug d1 = fmt_slug d2 -> same_minute d1 d2.
Proof.
  intros (Hm1 & Hd1 & Hh1 & Hi1) (Hm2 & Hd2 & Hh2 & Hi2) H.
  unfold fmt_slug in H.
  pose proof (unpad_pad4 (year d1)) as Uy1; pose proof (unpad_pad4 (year d2)) as Uy2.
  destruct (pad2_ok _ Hm1) as [Lm1 Um1]; destruct (pad2_ok _ Hm2) as [Lm2 Um2].
  destruct (pad2_ok _ Hd1) as [Ld1 Ud1]; destruct (pad2_ok _ Hd2) as [Ld2 Ud2].
  destruct (pad2_ok _ Hh1) as [Lh1 Uh1]; destruct (pad2_ok _ Hh2) as [Lh2 Uh2].
  destruct (pad2_ok _ Hi1) as [Li1 Ui1]; destruct (pad2_ok _ Hi2) as [Li2 Ui2].
  assert (Ly : String.length (pad4 (year d1)) = String.length (pad4 (year d2))).
  { apply (f_equal String.length) in H.
    rewrite !string_length_append, Lm1, Ld1, Lh1, Li1, Lm2, Ld2, Lh2, Li2 in H.
    simpl in H; lia. }
  apply append_inj_length in H as [Ey H]; [|exact Ly].
  apply append_inj_length in H as [Em H]; [|congruence].
  apply append_inj_length in H as [Ed H]; [|congruence].
  apply (append_cancel_l "-") in H.
  apply append_inj_length in H as [Eh Ei]; [|congruence].
  unfold same_minute; repeat split; congruence.
Qed.

(** X21: the slug has minute resolution.  For the same prefix, two runs
    have the same slug exactly when their clocks agree on year, month, day,
    hour and minute: the seconds never matter, and runs in different minutes
    never share a slug. *)
Theorem X21_slug_identifies_the_minute_of_the_run
    (rt : runtime) (w1 w2 : world rt) :
  SLUG_PREFIX w1 = SLUG_PREFIX w2 ->
  valid_clock (now_jst w1) ->
  valid_clock (now_jst w2) ->
  (slug w1 = slug w2 <-> same_minute (now_jst w1) (now_jst w2)).
Proof.
  intros Hp Hv1 Hv2; unfold slug; rewrite Hp; split.
  - intros H; apply append_cancel_l, (append_cancel_l "-") in H.
    apply fmt_slug_inj; assumption.
  - intros (Hy & Hm & Hd & Hh & Hi); unfold fmt_slug.
    rewrite Hy, Hm, Hd, Hh, Hi; reflexivity.
Qed.

(** ** The further properties on the sample worlds *)

(** X4 on a CMS that knows the tag. *)
Lemma X4_known_tag_run :
  wp_tag_id_by_name duplicate_present "VIX"
  = ([Http (tag_search duplicate_present "VIX")], Ok (Some 41%Z)).
Proof.
  eapply (X4_tag_found_by_search_is_not_created sample_runtime duplicate_present "VIX");
    reflexivity.
Defined.

(** X8 on a CMS that accepts the upload. *)
Lemma X8_accepted_upload :
  exists r d,
    http check_unreachable (media_request check_unreachable "/srv/fintrend/f.png") = Returns r
    /\ created sample_runtime r = true
    /\ json_body r = Returns (JDict d)
    /\ outcome_of (py_int sample_runtime (match dict_get "id" d with
                                         | Some v => v
                                         | None => JNull
                                         end)) = Ok 5%Z
    /\ logged ("WP 画像アップ成功: id=" ++ str_Z 5)
              (events (upload_media check_unreachable "/srv/fintrend/f.png")) = true.
Proof.
  apply (X8_upload_returns_an_id_only_on_a_created_answer
           sample_runtime check_unreachable "/srv/fintrend/f.png" 5%Z).
  reflexivity.
Defined.

(** X9 on a CMS that creates the post. *)
Lemma X9_created_post :
  exists body r,
    In (Http (POST_json (WP_POSTS_URL check_unreachable) (wp_auth check_unreachable) body 60))
       (events (post_to_wp check_unreachable "t" "s" "c" None []))
    /\ http check_unreachable
            (POST_json (WP_POSTS_URL check_unreachable) (wp_auth check_unreachable) body 60)
       = Returns r
    /\ created sample_runtime r = true.
Proof.
  apply (proj1 (X9_post_reports_success_only_on_a_created_answer
                  sample_runtime check_unreachable "t" "s" "c" None [])
               (JStr "https://blog.example/?p=9")); reflexivity.
Defined.

(** X11 on a generative service that answers. *)
Lemma X11_generated_image_run :
  exists png,
    generated_png openai_up = Some png
    /\ generate_feature_image openai_up
       = ([OpenAIImage "gpt-image-1" image_prompt "1024x1024";
           FileWrite (feature_path openai_up) png],
          Ok (Some (feature_path openai_up))).
Proof.
  apply (X11_generated_image_skips_the_fallback sample_runtime openai_up).
  reflexivity.
Defined.

(** X12 on a generative service that is configured and down. *)
Lemma X12_service_down_run :
  client openai_down = true
  /\ exists pre,
       generate_feature_image openai_down
       = ((pre ++ fallback_events openai_down)%list, render_outcome openai_down)
       /\ length (filter is_log pre) <= 1.
Proof.
  split; [reflexivity|].
  destruct (X12_any_failure_of_the_generative_branch_reaches_the_fallback
              sample_runtime openai_down) as (pre & Hrun & _ & Hlog & _).
  - reflexivity.
  - exists pre; split; assumption.
Defined.


(** X16 on the offline world. *)
Lemma X16_offline_run :
  forallb (fun ev => negb (is_openai ev)) (events (main offline)) = true
  /\ forallb (fun ev => match ev with FileWrite _ _ => false | _ => true end)
             (events (main offline)) = true.
Proof.
  apply (X16_no_client_no_generative_request sample_runtime offline); reflexivity.
Defined.

(** X19 on the base URL written with and without its slash. *)
Lemma X19_same_endpoints :
  endswith_char "/" (WP_BASE_URL offline_bare) = false
  /\ WP_BASE_URL offline_bare = WP_BASE_URL offline
  /\ WP_POSTS_URL offline_bare = WP_POSTS_URL offline
  /\ WP_MEDIA_URL offline_bare = WP_MEDIA_URL offline
  /\ WP_TAGS_URL offline_bare = WP_TAGS_URL offline.
Proof.
  apply (X19_trailing_slash_of_the_base_url_is_irrelevant
           sample_runtime offline_bare offline "https://blog.example"); reflexivity.
Defined.

(** X20 on a base URL of two slashes. *)
Lemma X20_slashes_only_run :
  main slashes_only =
    ([Log "=== 自動投稿タスク開始 ===";
      Log "WP 設定不足。WP_BASE_URL, WP_USERNAME, WP_APP_PASSWORD を確認してください。"],
     Ok tt).
Proof.
  apply (X20_base_url_of_slashes_is_missing_configuration
           sample_runtime slashes_only "//"); reflexivity.
Defined.

(** X21 on two runs of the same minute. *)
Lemma X21_same_minute_same_slug : slug offline = slug offline_later.
Proof.
  apply (X21_slug_identifies_the_minute_of_the_run sample_runtime offline offline_later).
  - reflexivity.
  - unfold valid_clock; simpl; lia.
  - unfold valid_clock; simpl; lia.
  - unfold same_minute; simpl; auto.
Defined.
